(** * kindr rotations: RotationMatrix and the rm quaternions

    A shallow embedding of
      - include/kindr/rotations/RotationMatrix.hpp
      - rm_quaternions/include/rm/quaternions/QuaternionEigen.hpp

    The template parameter [PrimType_] (float or double) is idealised as the
    field of real numbers: every arithmetic operation is exact, so a law the
    library states "within rounding" is stated here as an equality.  What a
    C function returns outside the reals (NaN, infinities) is never relied
    upon: [std::pow] is a parameter constrained on positive bases only, and
    the divisions of the source are only reasoned about where the divisor
    is non-zero. *)

From Stdlib Require Import Reals Lra Psatz RNsatz String.

Local Open Scope R_scope.

(** The primitive type of the coefficients ([PrimType_], [Scalar]). *)
Abbreviation Scalar := R (only parsing).

(** Comparisons of scalars as the booleans the C++ operators return. *)
Definition Rltb (a b : Scalar) : bool := if Rlt_dec a b then true else false.
Definition Rleb (a b : Scalar) : bool := if Rle_dec a b then true else false.
Definition Reqb (a b : Scalar) : bool := if Req_dec_T a b then true else false.

(** ** The part of Eigen the two headers use *)

Module Eigen.

(** [Eigen::Matrix<Scalar,3,3>], entry [mRC] is [(R,C)]. *)
Record Matrix3 : Type := mkMatrix3 {
  m00 : Scalar; m01 : Scalar; m02 : Scalar;
  m10 : Scalar; m11 : Scalar; m12 : Scalar;
  m20 : Scalar; m21 : Scalar; m22 : Scalar
}.

(** [Matrix::Identity()] *)
Definition Identity : Matrix3 :=
  mkMatrix3 1 0 0
            0 1 0
            0 0 1.

(** [m.transpose()] *)
Definition transpose (m : Matrix3) : Matrix3 :=
  mkMatrix3 (m00 m) (m10 m) (m20 m)
            (m01 m) (m11 m) (m21 m)
            (m02 m) (m12 m) (m22 m).

(** [m.determinant()] *)
Definition determinant (m : Matrix3) : Scalar :=
    m00 m * (m11 m * m22 m - m12 m * m21 m)
  - m01 m * (m10 m * m22 m - m12 m * m20 m)
  + m02 m * (m10 m * m21 m - m11 m * m20 m).

(** [a * b], the matrix product *)
Definition product (a b : Matrix3) : Matrix3 :=
  mkMatrix3
    (m00 a * m00 b + m01 a * m10 b + m02 a * m20 b)
    (m00 a * m01 b + m01 a * m11 b + m02 a * m21 b)
    (m00 a * m02 b + m01 a * m12 b + m02 a * m22 b)
    (m10 a * m00 b + m11 a * m10 b + m12 a * m20 b)
    (m10 a * m01 b + m11 a * m11 b + m12 a * m21 b)
    (m10 a * m02 b + m11 a * m12 b + m12 a * m22 b)
    (m20 a * m00 b + m21 a * m10 b + m22 a * m20 b)
    (m20 a * m01 b + m21 a * m11 b + m22 a * m21 b)
    (m20 a * m02 b + m21 a * m12 b + m22 a * m22 b).

(** [k * m], every coefficient multiplied by the scalar *)
Definition scaled (k : Scalar) (m : Matrix3) : Matrix3 :=
  mkMatrix3 (k * m00 m) (k * m01 m) (k * m02 m)
            (k * m10 m) (k * m11 m) (k * m12 m)
            (k * m20 m) (k * m21 m) (k * m22 m).

(** [Eigen::Matrix<Scalar,3,1>] *)
Record Vector3 : Type := mkVector3 { vx : Scalar; vy : Scalar; vz : Scalar }.

Definition squaredNorm (u : Vector3) : Scalar :=
  vx u * vx u + vy u * vy u + vz u * vz u.

(** [u.norm()] *)
Definition norm (u : Vector3) : Scalar := sqrt (squaredNorm u).

(** [Eigen::Quaternion<Scalar>], built as [Quaternion(w, x, y, z)]. *)
Record Quaternion : Type := mkQuaternion {
  qw : Scalar; qx : Scalar; qy : Scalar; qz : Scalar
}.

(** [Quaternion::Identity()] *)
Definition QIdentity : Quaternion := mkQuaternion 1 0 0 0.

(** [q.conjugate()] *)
Definition qconjugate (q : Quaternion) : Quaternion :=
  mkQuaternion (qw q) (- qx q) (- qy q) (- qz q).

Definition qsquaredNorm (q : Quaternion) : Scalar :=
  qw q * qw q + qx q * qx q + qy q * qy q + qz q * qz q.

(** [q.norm()] *)
Definition qnorm (q : Quaternion) : Scalar := sqrt (qsquaredNorm q).

(** [q.normalized()]: the coefficients divided by the norm *)
Definition qnormalized (q : Quaternion) : Quaternion :=
  mkQuaternion (qw q / qnorm q) (qx q / qnorm q)
               (qy q / qnorm q) (qz q / qnorm q).

(** [q.inverse()]: the conjugate divided by the squared norm, and the
    zero quaternion when the squared norm is not positive *)
Definition qinverse (q : Quaternion) : Quaternion :=
  let n2 := qsquaredNorm q in
  if Rltb 0 n2 then
    mkQuaternion (qw q / n2) (- qx q / n2) (- qy q / n2) (- qz q / n2)
  else mkQuaternion 0 0 0 0.

(** [a * b], the Hamilton product *)
Definition qproduct (a b : Quaternion) : Quaternion :=
  mkQuaternion
    (qw a * qw b - qx a * qx b - qy a * qy b - qz a * qz b)
    (qw a * qx b + qx a * qw b + qy a * qz b - qz a * qy b)
    (qw a * qy b + qy a * qw b + qz a * qx b - qx a * qz b)
    (qw a * qz b + qz a * qw b + qx a * qy b - qy a * qx b).

(** [q.toRotationMatrix()] *)
Definition toRotationMatrix (q : Quaternion) : Matrix3 :=
  let tx := 2 * qx q in
  let ty := 2 * qy q in
  let tz := 2 * qz q in
  let twx := tx * qw q in
  let twy := ty * qw q in
  let twz := tz * qw q in
  let txx := tx * qx q in
  let txy := ty * qx q in
  let txz := tz * qx q in
  let tyy := ty * qy q in
  let tyz := tz * qy q in
  let tzz := tz * qz q in
  mkMatrix3 (1 - (tyy + tzz)) (txy - twz) (txz + twy)
            (txy + twz) (1 - (txx + tzz)) (tyz - twx)
            (txz - twy) (tyz + twx) (1 - (txx + tyy)).

(** [k * u], every component multiplied by the scalar *)
Definition vscaled (k : Scalar) (u : Vector3) : Vector3 :=
  mkVector3 (k * vx u) (k * vy u) (k * vz u).

(** [- u] *)
Definition vopposite (u : Vector3) : Vector3 :=
  mkVector3 (- vx u) (- vy u) (- vz u).

(** [m * u], the product of a matrix and a column vector *)
Definition mulVector (m : Matrix3) (u : Vector3) : Vector3 :=
  mkVector3 (m00 m * vx u + m01 m * vy u + m02 m * vz u)
            (m10 m * vx u + m11 m * vy u + m12 m * vz u)
            (m20 m * vx u + m21 m * vy u + m22 m * vz u).

(** [Eigen::AngleAxis<Scalar>], built as [AngleAxis(angle, axis)]. *)
Record AngleAxis : Type := mkAngleAxis { angle : Scalar; axis : Vector3 }.

(** [aa.toRotationMatrix()] *)
Definition aaToRotationMatrix (aa : AngleAxis) : Matrix3 :=
  let sin_axis := vscaled (sin (angle aa)) (axis aa) in
  let c := cos (angle aa) in
  let cos1_axis := vscaled (1 - c) (axis aa) in
  let tmp01 := vx cos1_axis * vy (axis aa) in
  let tmp02 := vx cos1_axis * vz (axis aa) in
  let tmp12 := vy cos1_axis * vz (axis aa) in
  mkMatrix3
    (vx cos1_axis * vx (axis aa) + c) (tmp01 - vz sin_axis) (tmp02 + vy sin_axis)
    (tmp01 + vz sin_axis) (vy cos1_axis * vy (axis aa) + c) (tmp12 - vx sin_axis)
    (tmp02 - vy sin_axis) (tmp12 + vx sin_axis) (vz cos1_axis * vz (axis aa) + c).

End Eigen.

(** ** Exceptions

    The assertion macros of kindr throw the exception type they are
    given, [std::runtime_error]; the macro of rm is given a message and
    no exception type, so what it throws is kept apart as
    [assertion_failed].  The specification calls this single kind of
    failure [InvalidRepresentation]. *)

Inductive InvalidRepresentation : Type :=
  | runtime_error (what : string)
  | assertion_failed (what : string).

Inductive result (A : Type) : Type :=
  | Ok (a : A)
  | Throw (e : InvalidRepresentation).

Arguments Ok {A} a.
Arguments Throw {A} e.

Definition bind {A B : Type} (c : result A) (k : A -> result B) : result B :=
  match c with
  | Ok a => k a
  | Throw e => Throw e
  end.

Notation "c ;;; k" := (bind c (fun _ => k))
  (at level 61, right associativity).

(** Whether a computation threw. *)
Definition throws {A : Type} (c : result A) : Prop :=
  exists e, c = Throw e.

(** ** Assertion macros *)

(** Modelled from the spec: the comparison the assertion macros make,
    which are not among the sources.  A value is within the tolerance of
    the expected one when the two differ by at most [eps]. *)
Definition near (a b eps : Scalar) : bool := Rleb (Rabs (a - b)) eps.

(** Modelled from the spec: the comparison of two matrices in the matrix
    assertion macro, which is not among the sources.  Every coefficient
    of [a] is [near] the one of [b]. *)
Definition matrix_near (a b : Eigen.Matrix3) (eps : Scalar) : bool :=
  (near (Eigen.m00 a) (Eigen.m00 b) eps && near (Eigen.m01 a) (Eigen.m01 b) eps &&
   near (Eigen.m02 a) (Eigen.m02 b) eps && near (Eigen.m10 a) (Eigen.m10 b) eps &&
   near (Eigen.m11 a) (Eigen.m11 b) eps && near (Eigen.m12 a) (Eigen.m12 b) eps &&
   near (Eigen.m20 a) (Eigen.m20 b) eps && near (Eigen.m21 a) (Eigen.m21 b) eps &&
   near (Eigen.m22 a) (Eigen.m22 b) eps)%bool.

(** Modelled from the spec: the macro [ASSERT_SCALAR_NEAR] of rm/common,
    which is not among the sources.  The unit-norm check is a debug-mode
    check: it signals the error when the value fails its constraint
    beyond the fixed tolerance, and is skipped entirely in non-debug
    builds, which [NDEBUG] stands for. *)
Definition ASSERT_SCALAR_NEAR (NDEBUG : bool)
  (a b precision : Scalar) (message : string) : result unit :=
  if NDEBUG then Ok tt
  else if near a b precision then Ok tt
  else Throw (assertion_failed message).

(** Modelled from the spec: the macro [KINDR_ASSERT_SCALAR_NEAR_DBG] of
    kindr/common/assert_macros_eigen.hpp, which is not among the sources.
    The debug-mode check is skipped entirely in non-debug builds, which
    [NDEBUG] stands for. *)
Definition KINDR_ASSERT_SCALAR_NEAR_DBG (NDEBUG : bool)
  (a b precision : Scalar) (message : string) : result unit :=
  if NDEBUG then Ok tt
  else if near a b precision then Ok tt
  else Throw (runtime_error message).

(** Modelled from the spec: the macro [KINDR_ASSERT_MATRIX_NEAR_DBG] of
    kindr/common/assert_macros_eigen.hpp, which is not among the sources.
    The debug-mode check compares the two matrices coefficient by
    coefficient and is skipped entirely in non-debug builds. *)
Definition KINDR_ASSERT_MATRIX_NEAR_DBG (NDEBUG : bool)
  (a b : Eigen.Matrix3) (precision : Scalar) (message : string) : result unit :=
  if NDEBUG then Ok tt
  else if matrix_near a b precision then Ok tt
  else Throw (runtime_error message).

(** ** kindr/rotations/RotationMatrix.hpp *)

Module kindr.

(** Modelled from the spec: class [RotationVector] of
    kindr/rotations/RotationVector.hpp, which is not among the sources:
    three unconstrained components whose magnitude is the rotation
    angle, kept in an Eigen vector. *)
Module RotationVector.
Record t : Type := mk { toImplementation : Eigen.Vector3 }.
End RotationVector.

(** Modelled from the spec: class [EulerAnglesZyx] of
    kindr/rotations/EulerAnglesZyx.hpp, which is not among the sources:
    three scalar angles in the fixed rotation order Z, Y, X, so that the
    first angle is the one about Z, the second the one about Y and the
    third the one about X; the accessors are named after the axis. *)
Module EulerAnglesZyx.
Record t : Type := mk { z : Scalar; y : Scalar; x : Scalar }.
End EulerAnglesZyx.

(** Modelled from the spec: class [AngleAxis] of
    kindr/rotations/AngleAxis.hpp, which is not among the sources: a unit
    axis and a scalar angle, kept in an Eigen angle-axis. *)
Module AngleAxis.
Record t : Type := mk { toImplementation : Eigen.AngleAxis }.
End AngleAxis.

(** Modelled from the spec: class [RotationQuaternion] of
    kindr/rotations/RotationQuaternion.hpp, which is not among the
    sources: the four coefficients w, x, y, z of a quaternion of norm 1,
    kept in an Eigen quaternion. *)
Module RotationQuaternion.
Record t : Type := mk { toImplementation : Eigen.Quaternion }.
End RotationQuaternion.

Module RotationMatrix.

(** class [RotationMatrix]: privately an [Eigen::Matrix<PrimType_,3,3>]. *)
Record t : Type := mk { toImplementation : Eigen.Matrix3 }.

(** [x.toImplementation() = m] *)
Definition assign (this : t) (m : Eigen.Matrix3) : t := mk m.

(** [RotationMatrix()] *)
Definition default : t := mk Eigen.Identity.

Section Constructors.
Variable NDEBUG : bool.

(** [RotationMatrix(r11, ..., r33)] *)
Definition of_scalars (r11 r12 r13 r21 r22 r23 r31 r32 r33 : Scalar)
  : result t :=
  let this := mk (Eigen.mkMatrix3 r11 r12 r13 r21 r22 r23 r31 r32 r33) in
  KINDR_ASSERT_MATRIX_NEAR_DBG NDEBUG
    (Eigen.product (toImplementation this)
                   (Eigen.transpose (toImplementation this)))
    Eigen.Identity 1e-4 "Input matrix is not orthogonal." ;;;
  KINDR_ASSERT_SCALAR_NEAR_DBG NDEBUG
    (Eigen.determinant (toImplementation this)) 1 1e-4
    "Input matrix determinant is not 1." ;;;
  Ok this.

(** [explicit RotationMatrix(const Base& other)] *)
Definition of_Base (other : Eigen.Matrix3) : result t :=
  let this := mk other in
  KINDR_ASSERT_MATRIX_NEAR_DBG NDEBUG
    (Eigen.product other (Eigen.transpose other))
    Eigen.Identity 1e-4 "Input matrix is not orthogonal." ;;;
  KINDR_ASSERT_SCALAR_NEAR_DBG NDEBUG
    (Eigen.determinant other) 1 1e-4
    "Input matrix determinant is not 1." ;;;
  Ok this.
End Constructors.

(** [inverted()] *)
Definition inverted (this : t) : t :=
  let matrix := default in
  assign matrix (Eigen.transpose (toImplementation this)).

(** [invert()], the new value of [*this] *)
Definition invert (this : t) : t := inverted this.

(** [transposed()] *)
Definition transposed (this : t) : t :=
  let matrix := default in
  assign matrix (Eigen.transpose (toImplementation this)).

(** [transpose()], the new value of [*this] *)
Definition transpose (this : t) : t := transposed this.

(** [determinant()] *)
Definition determinant (this : t) : Scalar :=
  Eigen.determinant (toImplementation this).

(** [matrix()] *)
Definition matrix (this : t) : Eigen.Matrix3 := toImplementation this.

(** [setMatrix(input)], the new value of [*this] *)
Definition setMatrix (this : t) (input : Eigen.Matrix3) : t :=
  assign this input.

(** [setMatrix(r11, ..., r33)], the new value of [*this] *)
Definition setMatrix9 (this : t)
  (r11 r12 r13 r21 r22 r23 r31 r32 r33 : Scalar) : t :=
  mk (Eigen.mkMatrix3 r11 r12 r13 r21 r22 r23 r31 r32 r33).

(** [setIdentity()], the new value of [*this] *)
Definition setIdentity (this : t) : t := mk Eigen.Identity.

(** [getUnique()] *)
Definition getUnique (this : t) : t := this.

(** [setUnique()], the new value of [*this] *)
Definition setUnique (this : t) : t := this.

End RotationMatrix.

Module ConversionTraits.
Section Conversions.
(** [common::internal::NumTraits<Scalar>::dummy_precision()], declared
    in kindr/common/common.hpp, which is not among the sources. *)
Variable dummy_precision : Scalar.
Variable NDEBUG : bool.

(** [ConversionTraits<RotationMatrix, RotationVector>::convert] *)
Definition convert_RotationVector (rotationVector : RotationVector.t)
  : RotationMatrix.t :=
  let rv := RotationVector.toImplementation rotationVector in
  let v1 := Eigen.vx rv in
  let v2 := Eigen.vy rv in
  let v3 := Eigen.vz rv in
  let v := Eigen.norm rv in
  let matrixdata :=
    if Rltb v dummy_precision then
      Eigen.mkMatrix3 1 (- v3) v2
                      v3 1 (- v1)
                      (- v2) v1 1
    else
      let t3 := v * (1 / 2) in
      let t2 := sin t3 in
      let t4 := cos t3 in
      let t5 := 1 / (v * v) in
      let t6 := t4 * v * v3 in
      let t7 := t2 * v1 * v2 in
      let t8 := t2 * t2 in
      let t9 := v1 * v1 in
      let t10 := v2 * v2 in
      let t11 := v3 * v3 in
      let t12 := v * v in
      let t13 := t4 * t4 in
      let t14 := t12 * t13 in
      let t15 := t2 * v1 * v3 in
      let t16 := t4 * v * v1 in
      let t17 := t2 * v2 * v3 in
      Eigen.mkMatrix3
        (t5 * (t14 - t8 * (- t9 + t10 + t11)))
        (t2 * t5 * (t6 - t7) * -2)
        (t2 * t5 * (t15 + t4 * v * v2) * 2)
        (t2 * t5 * (t6 + t7) * 2)
        (t5 * (t14 - t8 * (t9 - t10 + t11)))
        (t2 * t5 * (t16 - t17) * -2)
        (t2 * t5 * (t15 - t4 * v * v2) * 2)
        (t2 * t5 * (t16 + t17) * 2)
        (t5 * (t14 - t8 * (t9 + t10 - t11)))
  in
  let matrix := RotationMatrix.default in
  RotationMatrix.assign matrix matrixdata.

(** [ConversionTraits<RotationMatrix, AngleAxis>::convert] *)
Definition convert_AngleAxis (aa : AngleAxis.t) : RotationMatrix.t :=
  let matrix := RotationMatrix.default in
  RotationMatrix.assign matrix
    (Eigen.aaToRotationMatrix (AngleAxis.toImplementation aa)).

(** [ConversionTraits<RotationMatrix, RotationQuaternion>::convert] *)
Definition convert_RotationQuaternion (q : RotationQuaternion.t)
  : RotationMatrix.t :=
  let matrix := RotationMatrix.default in
  RotationMatrix.assign matrix
    (Eigen.toRotationMatrix (RotationQuaternion.toImplementation q)).

(** [ConversionTraits<RotationMatrix, RotationMatrix>::convert] *)
Definition convert_RotationMatrix (R : RotationMatrix.t)
  : RotationMatrix.t :=
  let matrix := RotationMatrix.default in
  RotationMatrix.assign matrix (RotationMatrix.toImplementation R).

(** [ConversionTraits<RotationMatrix, EulerAnglesZyx>::convert] *)
Definition convert_EulerAnglesZyx (zyx : EulerAnglesZyx.t)
  : result RotationMatrix.t :=
  let phi := EulerAnglesZyx.x zyx in
  let theta := EulerAnglesZyx.y zyx in
  let psi := EulerAnglesZyx.z zyx in
  let t2 := cos theta in
  let t3 := sin psi in
  let t4 := cos psi in
  let t5 := sin theta in
  let t6 := cos phi in
  let t7 := sin phi in
  let matrix :=
    Eigen.mkMatrix3
      (t2 * t4) (- t2 * t3) t5
      (t3 * t6 + t4 * t5 * t7) (t4 * t6 - t3 * t5 * t7) (- t2 * t7)
      (t3 * t7 - t4 * t5 * t6) (t4 * t7 + t3 * t5 * t6) (t2 * t6)
  in
  RotationMatrix.of_Base NDEBUG matrix.
End Conversions.
End ConversionTraits.

(** The rotations a rotation matrix is made from: the classes
    [ConversionTraits<RotationMatrix, _>] is specialised on.
    [EulerAnglesXyz] is left out: its conversion goes through a
    constructor of [RotationQuaternion] that is not among the sources. *)
Inductive RotationBase : Type :=
  | ofAngleAxis (aa : AngleAxis.t)
  | ofRotationVector (rotationVector : RotationVector.t)
  | ofRotationQuaternion (q : RotationQuaternion.t)
  | ofRotationMatrix (R : RotationMatrix.t)
  | ofEulerAnglesZyx (zyx : EulerAnglesZyx.t).

Module FromRotation.
Section FromRotation.
Variable dummy_precision : Scalar.
Variable NDEBUG : bool.

(** [ConversionTraits<RotationMatrix, OtherDerived_>::convert(other.derived())],
    the specialisation chosen by the class of the argument. *)
Definition convert (other : RotationBase) : result RotationMatrix.t :=
  match other with
  | ofAngleAxis aa => Ok (ConversionTraits.convert_AngleAxis aa)
  | ofRotationVector rotationVector =>
      Ok (ConversionTraits.convert_RotationVector dummy_precision rotationVector)
  | ofRotationQuaternion q => Ok (ConversionTraits.convert_RotationQuaternion q)
  | ofRotationMatrix R => Ok (ConversionTraits.convert_RotationMatrix R)
  | ofEulerAnglesZyx zyx => ConversionTraits.convert_EulerAnglesZyx NDEBUG zyx
  end.

(** [explicit RotationMatrix(const RotationBase<OtherDerived_>& other)] *)
Definition of_rotation (other : RotationBase) : result RotationMatrix.t :=
  bind (convert other)
       (fun m => Ok (RotationMatrix.mk (RotationMatrix.toImplementation m))).

(** [operator =(const RotationBase<OtherDerived_>& other)], the new value
    of [*this] *)
Definition assign (this : RotationMatrix.t) (other : RotationBase)
  : result RotationMatrix.t :=
  bind (convert other)
       (fun m => Ok (RotationMatrix.assign this
                       (RotationMatrix.toImplementation m))).

(** [operator ()(const RotationBase<OtherDerived_>& other)], the new value
    of [*this] *)
Definition call (this : RotationMatrix.t) (other : RotationBase)
  : result RotationMatrix.t :=
  bind (convert other)
       (fun m => Ok (RotationMatrix.assign this
                       (RotationMatrix.toImplementation m))).

End FromRotation.
End FromRotation.

Module MultiplicationTraits.
(** [MultiplicationTraits<RotationMatrix, RotationMatrix>::mult] *)
Definition mult (lhs rhs : RotationMatrix.t) : RotationMatrix.t :=
  let result := RotationMatrix.default in
  RotationMatrix.assign result
    (Eigen.product (RotationMatrix.toImplementation lhs)
                   (RotationMatrix.toImplementation rhs)).
End MultiplicationTraits.

Module FixingTraits.
Section Fix.
(** [pow] of <cmath>. *)
Variable pow : Scalar -> Scalar -> Scalar.

(** [FixingTraits<RotationMatrix>::fix], the new value of [R] *)
Definition fix_ (R : RotationMatrix.t) : RotationMatrix.t :=
  let factor := 1 / pow (RotationMatrix.determinant R) (1 / 3) in
  RotationMatrix.setMatrix9 R
    (factor * Eigen.m00 (RotationMatrix.matrix R))
    (factor * Eigen.m01 (RotationMatrix.matrix R))
    (factor * Eigen.m02 (RotationMatrix.matrix R))
    (factor * Eigen.m10 (RotationMatrix.matrix R))
    (factor * Eigen.m11 (RotationMatrix.matrix R))
    (factor * Eigen.m12 (RotationMatrix.matrix R))
    (factor * Eigen.m20 (RotationMatrix.matrix R))
    (factor * Eigen.m21 (RotationMatrix.matrix R))
    (factor * Eigen.m22 (RotationMatrix.matrix R)).
End Fix.
End FixingTraits.

End kindr.

(** ** rm/quaternions/QuaternionEigen.hpp *)

Module rm.

Module Quaternion.

(** class [Quaternion]: privately an [Eigen::Quaternion<PrimType>]. *)
Record t : Type := mk { toImplementation : Eigen.Quaternion }.

(** [Quaternion()] *)
Definition default : t := mk (Eigen.mkQuaternion 0 0 0 0).

(** [Quaternion(w, x, y, z)] *)
Definition of_coefficients (w x y z : Scalar) : t :=
  mk (Eigen.mkQuaternion w x y z).

(** [explicit Quaternion(const Base & other)] *)
Definition of_Base (other : Eigen.Quaternion) : t := mk other.

(** [inverse()] *)
Definition inverse (this : t) : t :=
  of_Base (Eigen.qinverse (toImplementation this)).

(** [conjugate()] *)
Definition conjugate (this : t) : t :=
  of_Base (Eigen.qconjugate (toImplementation this)).

(** The reading accessors [w()], [x()], [y()], [z()]. *)
Definition w (this : t) : Scalar := Eigen.qw (toImplementation this).
Definition x (this : t) : Scalar := Eigen.qx (toImplementation this).
Definition y (this : t) : Scalar := Eigen.qy (toImplementation this).
Definition z (this : t) : Scalar := Eigen.qz (toImplementation this).

(** [q.w() = v] through the writing accessor, the new value of [q];
    a [UnitQuaternion] inherits it unchecked. *)
Definition set_w (this : t) (v : Scalar) : t :=
  mk (Eigen.mkQuaternion v (x this) (y this) (z this)).

(** [q.x() = v], [q.y() = v] and [q.z() = v], likewise. *)
Definition set_x (this : t) (v : Scalar) : t :=
  mk (Eigen.mkQuaternion (w this) v (y this) (z this)).
Definition set_y (this : t) (v : Scalar) : t :=
  mk (Eigen.mkQuaternion (w this) (x this) v (z this)).
Definition set_z (this : t) (v : Scalar) : t :=
  mk (Eigen.mkQuaternion (w this) (x this) (y this) v).

(** [operator ()(const Quaternion<PrimTypeIn> & quat)], the new value of
    [*this]: the four coefficients are assigned one after the other. *)
Definition call (this quat : t) : t :=
  let this := set_w this (w quat) in
  let this := set_x this (x quat) in
  let this := set_y this (y quat) in
  let this := set_z this (z quat) in
  this.

(** [norm()] *)
Definition norm (this : t) : Scalar := Eigen.qnorm (toImplementation this).

(** [normalize()], the new value of [*this] *)
Definition normalize (this : t) : t :=
  mk (Eigen.qnormalized (toImplementation this)).

(** [normalized()] *)
Definition normalized (this : t) : t :=
  of_Base (Eigen.qnormalized (toImplementation this)).

End Quaternion.

Module UnitQuaternion.

(** class [UnitQuaternion]: publicly a [Quaternion<PrimType>]. *)
Record t : Type := mk { Base : Quaternion.t }.

(** [using Base::norm] *)
Definition norm (this : t) : Scalar := Quaternion.norm (Base this).

(** [UnitQuaternion()] *)
Definition default : t := mk (Quaternion.of_Base Eigen.QIdentity).

(** [q.w() = v] through the accessor inherited from [Quaternion]. *)
Definition set_w (this : t) (v : Scalar) : t :=
  mk (Quaternion.set_w (Base this) v).

(** [operator =(const UnitQuaternion<PrimTypeIn> & other)], the new value
    of [*this]: the coefficients are copied, with no check. *)
Definition assign (this other : t) : t :=
  let this := mk (Quaternion.set_w (Base this) (Quaternion.w (Base other))) in
  let this := mk (Quaternion.set_x (Base this) (Quaternion.x (Base other))) in
  let this := mk (Quaternion.set_y (Base this) (Quaternion.y (Base other))) in
  let this := mk (Quaternion.set_z (Base this) (Quaternion.z (Base other))) in
  this.

(** [operator ()(const UnitQuaternion<PrimTypeIn> & quat)], the new value
    of [*this]. *)
Definition call_UnitQuaternion (this quat : t) : t := assign this quat.

Section Checked.
Variable NDEBUG : bool.

(** [UnitQuaternion(w, x, y, z)] *)
Definition of_coefficients (w x y z : Scalar) : result t :=
  let this := mk (Quaternion.of_coefficients w x y z) in
  ASSERT_SCALAR_NEAR NDEBUG (norm this) 1 1e-6
    "Input quaternion has not unit length." ;;;
  Ok this.

(** [explicit UnitQuaternion(const Base & other)] *)
Definition of_Quaternion (other : Quaternion.t) : result t :=
  let this := mk other in
  ASSERT_SCALAR_NEAR NDEBUG (norm this) 1 1e-6
    "Input quaternion has not unit length." ;;;
  Ok this.

(** [explicit UnitQuaternion(const Implementation & other)] *)
Definition of_Implementation (other : Eigen.Quaternion) : result t :=
  let this := mk (Quaternion.of_Base other) in
  ASSERT_SCALAR_NEAR NDEBUG (norm this) 1 1e-6
    "Input quaternion has not unit length." ;;;
  Ok this.

(** [operator ()(const Quaternion<PrimTypeIn> & quat)]: the four
    coefficients are assigned, then the norm is checked; the result is
    the new value of [*this]. *)
Definition call_Quaternion (this : t) (quat : Quaternion.t) : result t :=
  let this := mk (Quaternion.set_w (Base this) (Quaternion.w quat)) in
  let this := mk (Quaternion.set_x (Base this) (Quaternion.x quat)) in
  let this := mk (Quaternion.set_y (Base this) (Quaternion.y quat)) in
  let this := mk (Quaternion.set_z (Base this) (Quaternion.z quat)) in
  ASSERT_SCALAR_NEAR NDEBUG (norm this) 1 1e-6
    "Input quaternion has not unit length." ;;;
  Ok this.

(** [conjugate()] *)
Definition conjugate (this : t) : result t :=
  of_Quaternion (Quaternion.conjugate (Base this)).

(** [inverse()] *)
Definition inverse (this : t) : result t :=
  of_Quaternion (Quaternion.conjugate (Base this)).

End Checked.

End UnitQuaternion.

(** [Quaternion::toUnitQuaternion()] *)
Definition toUnitQuaternion (NDEBUG : bool) (this : Quaternion.t)
  : result UnitQuaternion.t :=
  UnitQuaternion.of_Implementation NDEBUG
    (Eigen.qnormalized (Quaternion.toImplementation this)).

Module MultiplicationTraits.
(** [MultiplicationTraits<Quaternion, Quaternion>::mult] *)
Definition mult (a b : Quaternion.t) : Quaternion.t :=
  Quaternion.of_Base
    (Eigen.qproduct (Quaternion.toImplementation a)
                    (Quaternion.toImplementation b)).
End MultiplicationTraits.

Module ComparisonTraits.
(** [ComparisonTraits<Quaternion>::isequal] *)
Definition isequal (a b : Quaternion.t) : bool :=
  (Reqb (Quaternion.w a) (Quaternion.w b) &&
   Reqb (Quaternion.x a) (Quaternion.x b) &&
   Reqb (Quaternion.y a) (Quaternion.y b) &&
   Reqb (Quaternion.z a) (Quaternion.z b))%bool.
End ComparisonTraits.

(** [operator *(Quaternion, Quaternion)] *)
Definition operator_mul (a b : Quaternion.t) : Quaternion.t :=
  MultiplicationTraits.mult a b.

(** [operator ==(Quaternion, Quaternion)] *)
Definition operator_eq (a b : Quaternion.t) : bool :=
  ComparisonTraits.isequal a b.

End rm.

(** ** The calls of the two headers

    Every member function and trait function of the two headers that
    the model embeds, with its arguments: the constructors, the reading
    and the writing accessors, the operators and the trait functions.
    Left out are the stream operators, the conversion from
    [EulerAnglesXyz] and [Quaternion::operator=], which go through code
    that is not among the sources. *)

Inductive call : Type :=
  | c_RotationMatrix
  | c_RotationMatrix_scalars (r11 r12 r13 r21 r22 r23 r31 r32 r33 : Scalar)
  | c_RotationMatrix_Base (other : Eigen.Matrix3)
  | c_RotationMatrix_rotation (other : kindr.RotationBase)
  | c_RotationMatrix_assign (this : kindr.RotationMatrix.t)
                            (other : kindr.RotationBase)
  | c_RotationMatrix_call (this : kindr.RotationMatrix.t)
                          (other : kindr.RotationBase)
  | c_inverted (this : kindr.RotationMatrix.t)
  | c_invert (this : kindr.RotationMatrix.t)
  | c_transposed (this : kindr.RotationMatrix.t)
  | c_transpose (this : kindr.RotationMatrix.t)
  | c_determinant (this : kindr.RotationMatrix.t)
  | c_toImplementation (this : kindr.RotationMatrix.t)
  | c_matrix (this : kindr.RotationMatrix.t)
  | c_setMatrix (this : kindr.RotationMatrix.t) (input : Eigen.Matrix3)
  | c_setMatrix9 (this : kindr.RotationMatrix.t)
                 (r11 r12 r13 r21 r22 r23 r31 r32 r33 : Scalar)
  | c_setIdentity (this : kindr.RotationMatrix.t)
  | c_getUnique (this : kindr.RotationMatrix.t)
  | c_setUnique (this : kindr.RotationMatrix.t)
  | c_convert (other : kindr.RotationBase)
  | c_mult (lhs rhs : kindr.RotationMatrix.t)
  | c_fix (R : kindr.RotationMatrix.t)
  | c_Quaternion
  | c_Quaternion_coefficients (w x y z : Scalar)
  | c_Quaternion_Base (other : Eigen.Quaternion)
  | c_Quaternion_inverse (this : rm.Quaternion.t)
  | c_Quaternion_conjugate (this : rm.Quaternion.t)
  | c_Quaternion_call (this quat : rm.Quaternion.t)
  | c_Quaternion_toImplementation (this : rm.Quaternion.t)
  | c_Quaternion_read (this : rm.Quaternion.t)
  | c_Quaternion_write (this : rm.Quaternion.t) (w x y z : Scalar)
  | c_Quaternion_norm (this : rm.Quaternion.t)
  | c_Quaternion_normalize (this : rm.Quaternion.t)
  | c_Quaternion_normalized (this : rm.Quaternion.t)
  | c_Quaternion_toUnitQuaternion (this : rm.Quaternion.t)
  | c_UnitQuaternion
  | c_UnitQuaternion_coefficients (w x y z : Scalar)
  | c_UnitQuaternion_Quaternion (other : rm.Quaternion.t)
  | c_UnitQuaternion_Implementation (other : Eigen.Quaternion)
  | c_UnitQuaternion_assign (this other : rm.UnitQuaternion.t)
  | c_UnitQuaternion_call_UnitQuaternion (this quat : rm.UnitQuaternion.t)
  | c_UnitQuaternion_call_Quaternion (this : rm.UnitQuaternion.t)
                                     (quat : rm.Quaternion.t)
  | c_UnitQuaternion_write (this : rm.UnitQuaternion.t) (w : Scalar)
  | c_UnitQuaternion_conjugate (this : rm.UnitQuaternion.t)
  | c_UnitQuaternion_inverse (this : rm.UnitQuaternion.t)
  | c_operator_mul (a b : rm.Quaternion.t)
  | c_operator_eq (a b : rm.Quaternion.t).

(** Runs a computation for whether it throws, forgetting its value. *)
Definition finished {A : Type} (c : result A) : result unit :=
  bind c (fun _ => Ok tt).

Section Outcome.
Variable NDEBUG : bool.
Variable dummy_precision : Scalar.
Variable pow : Scalar -> Scalar -> Scalar.

(** What a call does in the model: the functions that return a value
    return it, the others run their checks. *)
Definition outcome (c : call) : result unit :=
  match c with
  | c_RotationMatrix => finished (Ok kindr.RotationMatrix.default)
  | c_RotationMatrix_scalars r11 r12 r13 r21 r22 r23 r31 r32 r33 =>
      finished (kindr.RotationMatrix.of_scalars NDEBUG
                  r11 r12 r13 r21 r22 r23 r31 r32 r33)
  | c_RotationMatrix_Base other =>
      finished (kindr.RotationMatrix.of_Base NDEBUG other)
  | c_RotationMatrix_rotation other =>
      finished (kindr.FromRotation.of_rotation dummy_precision NDEBUG other)
  | c_RotationMatrix_assign this other =>
      finished (kindr.FromRotation.assign dummy_precision NDEBUG this other)
  | c_RotationMatrix_call this other =>
      finished (kindr.FromRotation.call dummy_precision NDEBUG this other)
  | c_inverted this => finished (Ok (kindr.RotationMatrix.inverted this))
  | c_invert this => finished (Ok (kindr.RotationMatrix.invert this))
  | c_transposed this => finished (Ok (kindr.RotationMatrix.transposed this))
  | c_transpose this => finished (Ok (kindr.RotationMatrix.transpose this))
  | c_determinant this => finished (Ok (kindr.RotationMatrix.determinant this))
  | c_toImplementation this =>
      finished (Ok (kindr.RotationMatrix.toImplementation this))
  | c_matrix this => finished (Ok (kindr.RotationMatrix.matrix this))
  | c_setMatrix this input =>
      finished (Ok (kindr.RotationMatrix.setMatrix this input))
  | c_setMatrix9 this r11 r12 r13 r21 r22 r23 r31 r32 r33 =>
      finished (Ok (kindr.RotationMatrix.setMatrix9 this
                      r11 r12 r13 r21 r22 r23 r31 r32 r33))
  | c_setIdentity this => finished (Ok (kindr.RotationMatrix.setIdentity this))
  | c_getUnique this => finished (Ok (kindr.RotationMatrix.getUnique this))
  | c_setUnique this => finished (Ok (kindr.RotationMatrix.setUnique this))
  | c_convert other =>
      finished (kindr.FromRotation.convert dummy_precision NDEBUG other)
  | c_mult lhs rhs => finished (Ok (kindr.MultiplicationTraits.mult lhs rhs))
  | c_fix R => finished (Ok (kindr.FixingTraits.fix_ pow R))
  | c_Quaternion => finished (Ok rm.Quaternion.default)
  | c_Quaternion_coefficients w x y z =>
      finished (Ok (rm.Quaternion.of_coefficients w x y z))
  | c_Quaternion_Base other => finished (Ok (rm.Quaternion.of_Base other))
  | c_Quaternion_inverse this => finished (Ok (rm.Quaternion.inverse this))
  | c_Quaternion_conjugate this => finished (Ok (rm.Quaternion.conjugate this))
  | c_Quaternion_call this quat => finished (Ok (rm.Quaternion.call this quat))
  | c_Quaternion_toImplementation this =>
      finished (Ok (rm.Quaternion.toImplementation this))
  | c_Quaternion_read this =>
      finished (Ok (rm.Quaternion.w this, rm.Quaternion.x this,
                    rm.Quaternion.y this, rm.Quaternion.z this))
  | c_Quaternion_write this w x y z =>
      finished (Ok (rm.Quaternion.set_z
                      (rm.Quaternion.set_y
                         (rm.Quaternion.set_x (rm.Quaternion.set_w this w) x) y) z))
  | c_Quaternion_norm this => finished (Ok (rm.Quaternion.norm this))
  | c_Quaternion_normalize this => finished (Ok (rm.Quaternion.normalize this))
  | c_Quaternion_normalized this => finished (Ok (rm.Quaternion.normalized this))
  | c_Quaternion_toUnitQuaternion this =>
      finished (rm.toUnitQuaternion NDEBUG this)
  | c_UnitQuaternion => finished (Ok rm.UnitQuaternion.default)
  | c_UnitQuaternion_coefficients w x y z =>
      finished (rm.UnitQuaternion.of_coefficients NDEBUG w x y z)
  | c_UnitQuaternion_Quaternion other =>
      finished (rm.UnitQuaternion.of_Quaternion NDEBUG other)
  | c_UnitQuaternion_Implementation other =>
      finished (rm.UnitQuaternion.of_Implementation NDEBUG other)
  | c_UnitQuaternion_assign this other =>
      finished (Ok (rm.UnitQuaternion.assign this other))
  | c_UnitQuaternion_call_UnitQuaternion this quat =>
      finished (Ok (rm.UnitQuaternion.call_UnitQuaternion this quat))
  | c_UnitQuaternion_call_Quaternion this quat =>
      finished (rm.UnitQuaternion.call_Quaternion NDEBUG this quat)
  | c_UnitQuaternion_write this w =>
      finished (Ok (rm.UnitQuaternion.set_w this w))
  | c_UnitQuaternion_conjugate this =>
      finished (rm.UnitQuaternion.conjugate NDEBUG this)
  | c_UnitQuaternion_inverse this =>
      finished (rm.UnitQuaternion.inverse NDEBUG this)
  | c_operator_mul a b => finished (Ok (rm.operator_mul a b))
  | c_operator_eq a b => finished (Ok (rm.operator_eq a b))
  end.

End Outcome.

(** ** Notions of the specification *)

(** The negation [-q] of a quaternion, the other representative of the
    rotation [q] stands for. *)
Definition negated (q : rm.Quaternion.t) : rm.Quaternion.t :=
  rm.Quaternion.of_coefficients
    (- rm.Quaternion.w q) (- rm.Quaternion.x q)
    (- rm.Quaternion.y q) (- rm.Quaternion.z q).

(** The elementary active rotations about the three axes. *)
Definition Rx (a : Scalar) : kindr.RotationMatrix.t :=
  kindr.RotationMatrix.mk
    (Eigen.mkMatrix3 1 0 0
                     0 (cos a) (- sin a)
                     0 (sin a) (cos a)).

Definition Ry (a : Scalar) : kindr.RotationMatrix.t :=
  kindr.RotationMatrix.mk
    (Eigen.mkMatrix3 (cos a) 0 (sin a)
                     0 1 0
                     (- sin a) 0 (cos a)).

Definition Rz (a : Scalar) : kindr.RotationMatrix.t :=
  kindr.RotationMatrix.mk
    (Eigen.mkMatrix3 (cos a) (- sin a) 0
                     (sin a) (cos a) 0
                     0 0 1).

(** The orthogonality invariant of a rotation matrix, R * transpose(R) = I. *)
Definition orthogonal (R : kindr.RotationMatrix.t) : Prop :=
  Eigen.product (kindr.RotationMatrix.toImplementation R)
                (Eigen.transpose (kindr.RotationMatrix.toImplementation R))
  = Eigen.Identity.

(** A valid rotation matrix: orthogonal with determinant 1. *)
Definition valid (R : kindr.RotationMatrix.t) : Prop :=
  orthogonal R /\ kindr.RotationMatrix.determinant R = 1.

(** Every coefficient of [a] within [eps] of the one of [b]. *)
Definition matrix_within (a b : Eigen.Matrix3) (eps : Scalar) : Prop :=
  Rabs (Eigen.m00 a - Eigen.m00 b) <= eps /\
  Rabs (Eigen.m01 a - Eigen.m01 b) <= eps /\
  Rabs (Eigen.m02 a - Eigen.m02 b) <= eps /\
  Rabs (Eigen.m10 a - Eigen.m10 b) <= eps /\
  Rabs (Eigen.m11 a - Eigen.m11 b) <= eps /\
  Rabs (Eigen.m12 a - Eigen.m12 b) <= eps /\
  Rabs (Eigen.m20 a - Eigen.m20 b) <= eps /\
  Rabs (Eigen.m21 a - Eigen.m21 b) <= eps /\
  Rabs (Eigen.m22 a - Eigen.m22 b) <= eps.

(** Orthogonal with determinant 1 within the tolerance [eps]. *)
Definition rotation_within (m : Eigen.Matrix3) (eps : Scalar) : Prop :=
  matrix_within (Eigen.product m (Eigen.transpose m)) Eigen.Identity eps /\
  Rabs (Eigen.determinant m - 1) <= eps.

(** The validity check that a call runs fails: the call is one of the
    checked constructors, [UnitQuaternion::operator()] on a quaternion,
    or an operation that ends in a checked constructor, and the
    coefficients it checks are off by more than the tolerance. *)
Definition failed_check (c : call) : Prop :=
  match c with
  | c_RotationMatrix_scalars r11 r12 r13 r21 r22 r23 r31 r32 r33 =>
      ~ rotation_within
          (Eigen.mkMatrix3 r11 r12 r13 r21 r22 r23 r31 r32 r33) 1e-4
  | c_RotationMatrix_Base other => ~ rotation_within other 1e-4
  | c_UnitQuaternion_coefficients w x y z =>
      Rabs (sqrt (w * w + x * x + y * y + z * z) - 1) > 1e-6
  | c_UnitQuaternion_Quaternion other =>
      Rabs (rm.Quaternion.norm other - 1) > 1e-6
  | c_UnitQuaternion_Implementation other =>
      Rabs (Eigen.qnorm other - 1) > 1e-6
  | c_UnitQuaternion_call_Quaternion _ quat =>
      Rabs (rm.Quaternion.norm quat - 1) > 1e-6
  | c_UnitQuaternion_conjugate this | c_UnitQuaternion_inverse this =>
      Rabs (rm.UnitQuaternion.norm this - 1) > 1e-6
  | c_Quaternion_toUnitQuaternion this =>
      Rabs (rm.Quaternion.norm (rm.Quaternion.normalized this) - 1) > 1e-6
  | _ => False
  end.

(** * Properties *)

(** Equality of two matrices, coefficient by coefficient. *)
Lemma Matrix3_eq (a b : Eigen.Matrix3) :
  Eigen.m00 a = Eigen.m00 b -> Eigen.m01 a = Eigen.m01 b -> Eigen.m02 a = Eigen.m02 b ->
  Eigen.m10 a = Eigen.m10 b -> Eigen.m11 a = Eigen.m11 b -> Eigen.m12 a = Eigen.m12 b ->
  Eigen.m20 a = Eigen.m20 b -> Eigen.m21 a = Eigen.m21 b -> Eigen.m22 a = Eigen.m22 b ->
  a = b.
Proof.
  destruct a, b; simpl; intros; subst; reflexivity.
Qed.

(** Splits an equation between two matrices into its nine coefficients. *)
Ltac matrix_ext := apply Matrix3_eq; simpl.

(** ** Inversion and transposition *)

(** C9: [inverted] and [transposed] agree on every [RotationMatrix] value,
    valid or not: both return the coefficient-wise transpose.  So
    [inverted] is not the numeric inverse of a matrix that is not
    orthogonal: twice the identity composed with its [inverted] is four
    times the identity. *)
Theorem inverted_transposed_ext :
  (forall R : kindr.RotationMatrix.t,
      kindr.RotationMatrix.inverted R = kindr.RotationMatrix.transposed R /\
      kindr.RotationMatrix.toImplementation (kindr.RotationMatrix.inverted R)
      = Eigen.transpose (kindr.RotationMatrix.toImplementation R) /\
      kindr.RotationMatrix.toImplementation (kindr.RotationMatrix.transposed R)
      = Eigen.transpose (kindr.RotationMatrix.toImplementation R)) /\
  (exists R : kindr.RotationMatrix.t,
      kindr.MultiplicationTraits.mult R (kindr.RotationMatrix.inverted R)
      <> kindr.RotationMatrix.default /\
      kindr.MultiplicationTraits.mult (kindr.RotationMatrix.inverted R) R
      <> kindr.RotationMatrix.default).
Proof.
  split.
  - intros R. repeat split; reflexivity.
  - exists (kindr.RotationMatrix.mk (Eigen.scaled 2 Eigen.Identity)).
    split; intros H; apply (f_equal kindr.RotationMatrix.toImplementation) in H;
      apply (f_equal Eigen.m00) in H; simpl in H; lra.
Qed.

(** The transpose of an orthogonal matrix is its inverse on the left too. *)
Lemma orthogonal_left (R : kindr.RotationMatrix.t) :
  orthogonal R ->
  Eigen.product (Eigen.transpose (kindr.RotationMatrix.toImplementation R))
                (kindr.RotationMatrix.toImplementation R)
  = Eigen.Identity.
Proof.
  destruct R as [[a b c d e f g h i]].
  unfold orthogonal, Eigen.product, Eigen.transpose, Eigen.Identity; simpl.
  intros H; injection H as H00 H01 H02 H10 H11 H12 H20 H21 H22.
  f_equal; nsatz.
Qed.

(** C3: for a rotation matrix that satisfies the orthogonality invariant,
    [inverted] is the transpose, and the composition of the matrix with
    its [inverted], in either order, is the identity rotation. *)
Theorem inverse_law (R : kindr.RotationMatrix.t) :
  orthogonal R ->
  kindr.RotationMatrix.toImplementation (kindr.RotationMatrix.inverted R)
  = Eigen.transpose (kindr.RotationMatrix.toImplementation R) /\
  kindr.MultiplicationTraits.mult R (kindr.RotationMatrix.inverted R)
  = kindr.RotationMatrix.default /\
  kindr.MultiplicationTraits.mult (kindr.RotationMatrix.inverted R) R
  = kindr.RotationMatrix.default.
Proof.
  intros HR. split; [reflexivity|].
  unfold kindr.MultiplicationTraits.mult, kindr.RotationMatrix.inverted,
    kindr.RotationMatrix.assign, kindr.RotationMatrix.default.
  simpl. split; f_equal.
  - exact HR.
  - apply orthogonal_left, HR.
Qed.

(** The quarter turn about Z, with coefficients 0 -1 0, 1 0 0, 0 0 1,
    satisfies the invariant, and the inverse law holds of it. *)
Lemma inverse_law_witness :
  orthogonal (kindr.RotationMatrix.mk (Eigen.mkMatrix3 0 (-1) 0 1 0 0 0 0 1)) /\
  kindr.MultiplicationTraits.mult
    (kindr.RotationMatrix.mk (Eigen.mkMatrix3 0 (-1) 0 1 0 0 0 0 1))
    (kindr.RotationMatrix.inverted
       (kindr.RotationMatrix.mk (Eigen.mkMatrix3 0 (-1) 0 1 0 0 0 0 1)))
  = kindr.RotationMatrix.default.
Proof.
  assert (H : orthogonal
                (kindr.RotationMatrix.mk (Eigen.mkMatrix3 0 (-1) 0 1 0 0 0 0 1))).
  { unfold orthogonal, Eigen.product, Eigen.transpose, Eigen.Identity.
    simpl. f_equal; ring. }
  split; [exact H|].
  exact (proj1 (proj2 (inverse_law _ H))).
Defined.

(** ** Quaternions *)

(** The boolean equality of scalars decides equality. *)
Lemma Reqb_true (a b : Scalar) : Reqb a b = true <-> a = b.
Proof.
  unfold Reqb. destruct (Req_dec_T a b); split; congruence.
Qed.

Lemma Rleb_true (a b : Scalar) : Rleb a b = true <-> a <= b.
Proof.
  unfold Rleb. destruct (Rle_dec a b); split; congruence.
Qed.

Lemma Rltb_true (a b : Scalar) : Rltb a b = true <-> a < b.
Proof.
  unfold Rltb. destruct (Rlt_dec a b); split; congruence.
Qed.

Lemma Rltb_false (a b : Scalar) : Rltb a b = false <-> b <= a.
Proof.
  unfold Rltb. destruct (Rlt_dec a b); split; try congruence; lra.
Qed.

(** Reduces the accessors of a quaternion given by its coefficients. *)
Ltac quaternion_simpl :=
  cbv [rm.Quaternion.w rm.Quaternion.x rm.Quaternion.y rm.Quaternion.z
       rm.Quaternion.toImplementation rm.Quaternion.of_coefficients
       rm.Quaternion.of_Base rm.Quaternion.default rm.UnitQuaternion.Base
       rm.UnitQuaternion.default negated
       Eigen.qw Eigen.qx Eigen.qy Eigen.qz Eigen.QIdentity] in *.

(** [isequal] holds of two quaternions exactly when they are the same
    four coefficients. *)
Lemma isequal_true (a b : rm.Quaternion.t) :
  rm.ComparisonTraits.isequal a b = true <-> a = b.
Proof.
  destruct a as [[aw ax ay az]], b as [[bw bx b_y bz]].
  unfold rm.ComparisonTraits.isequal; quaternion_simpl.
  rewrite !Bool.andb_true_iff, !Reqb_true.
  split.
  - intros [[[-> ->] ->] ->]. reflexivity.
  - intros H; injection H as -> -> -> ->. repeat split.
Qed.

(** C10: the default [Quaternion] has the four coefficients 0, and so the
    norm 0; the default [UnitQuaternion] is the identity quaternion, with
    the coefficients 1, 0, 0, 0. *)
Theorem default_constructors :
  (rm.Quaternion.w rm.Quaternion.default = 0 /\
   rm.Quaternion.x rm.Quaternion.default = 0 /\
   rm.Quaternion.y rm.Quaternion.default = 0 /\
   rm.Quaternion.z rm.Quaternion.default = 0 /\
   rm.Quaternion.norm rm.Quaternion.default = 0) /\
  (rm.Quaternion.w (rm.UnitQuaternion.Base rm.UnitQuaternion.default) = 1 /\
   rm.Quaternion.x (rm.UnitQuaternion.Base rm.UnitQuaternion.default) = 0 /\
   rm.Quaternion.y (rm.UnitQuaternion.Base rm.UnitQuaternion.default) = 0 /\
   rm.Quaternion.z (rm.UnitQuaternion.Base rm.UnitQuaternion.default) = 0 /\
   rm.UnitQuaternion.norm rm.UnitQuaternion.default = 1).
Proof.
  unfold rm.UnitQuaternion.norm, rm.Quaternion.norm, Eigen.qnorm,
    Eigen.qsquaredNorm; quaternion_simpl.
  repeat split; try reflexivity.
  - replace (0 * 0 + 0 * 0 + 0 * 0 + 0 * 0) with 0 by ring. apply sqrt_0.
  - replace (1 * 1 + 0 * 0 + 0 * 0 + 0 * 0) with 1 by ring. apply sqrt_1.
Qed.

(** The identity quaternion does not compare equal to its negation,
    although both stand for the identity rotation. *)
Lemma isequal_negated_identity :
  rm.operator_eq (rm.Quaternion.of_coefficients 1 0 0 0)
                 (negated (rm.Quaternion.of_coefficients 1 0 0 0)) = false.
Proof.
  apply Bool.not_true_is_false. unfold rm.operator_eq.
  rewrite isequal_true. intros H.
  apply (f_equal rm.Quaternion.w) in H. quaternion_simpl. lra.
Qed.

(** C7, as the code has it: [operator==] on [Quaternion] is the raw
    equality of the four coefficients, with no canonicalization; a
    quaternion compares equal to its negation only when it is zero. *)
Theorem operator_eq_raw :
  (forall a b : rm.Quaternion.t,
      rm.operator_eq a b = true <->
      rm.Quaternion.w a = rm.Quaternion.w b /\
      rm.Quaternion.x a = rm.Quaternion.x b /\
      rm.Quaternion.y a = rm.Quaternion.y b /\
      rm.Quaternion.z a = rm.Quaternion.z b) /\
  (forall q : rm.Quaternion.t,
      rm.operator_eq q (negated q) = true <-> q = rm.Quaternion.default).
Proof.
  split.
  - intros a b. unfold rm.operator_eq. rewrite isequal_true.
    destruct a as [[aw ax ay az]], b as [[bw bx b_y bz]]; quaternion_simpl.
    split.
    + intros H; injection H as -> -> -> ->. repeat split.
    + intros (-> & -> & -> & ->). reflexivity.
  - intros q. unfold rm.operator_eq. rewrite isequal_true.
    destruct q as [[qw qx qy qz]].
    quaternion_simpl.
    split; intros H; injection H as Hw Hx Hy Hz.
    + do 2 f_equal; lra.
    + subst. do 2 f_equal; lra.
Qed.

(** ** Conversion from a rotation vector *)

(** The norm of the zero vector. *)
Lemma norm_zero : Eigen.norm (Eigen.mkVector3 0 0 0) = 0.
Proof.
  unfold Eigen.norm, Eigen.squaredNorm; simpl.
  replace (0 * 0 + 0 * 0 + 0 * 0) with 0 by ring. apply sqrt_0.
Qed.

(** The norm of a vector is not negative, and its square is the sum of
    the squares of the components. *)
Lemma norm_nonneg (u : Eigen.Vector3) : 0 <= Eigen.norm u.
Proof. apply sqrt_pos. Qed.

Lemma norm_square (u : Eigen.Vector3) :
  Eigen.norm u * Eigen.norm u
  = Eigen.vx u * Eigen.vx u + Eigen.vy u * Eigen.vy u + Eigen.vz u * Eigen.vz u.
Proof.
  unfold Eigen.norm. apply sqrt_sqrt. unfold Eigen.squaredNorm.
  pose proof (Rle_0_sqr (Eigen.vx u)). pose proof (Rle_0_sqr (Eigen.vy u)).
  pose proof (Rle_0_sqr (Eigen.vz u)). unfold Rsqr in *. lra.
Qed.

Section RotationVectorConversion.

Variable dummy_precision : Scalar.

(** Below the threshold: the identity plus the skew-symmetric matrix. *)
Lemma convert_RotationVector_small (v1 v2 v3 : Scalar) :
  Eigen.norm (Eigen.mkVector3 v1 v2 v3) < dummy_precision ->
  kindr.RotationMatrix.toImplementation
    (kindr.ConversionTraits.convert_RotationVector dummy_precision
       (kindr.RotationVector.mk (Eigen.mkVector3 v1 v2 v3)))
  = Eigen.mkMatrix3 1 (- v3) v2
                    v3 1 (- v1)
                    (- v2) v1 1.
Proof.
  intros Hv. apply Rltb_true in Hv.
  unfold kindr.ConversionTraits.convert_RotationVector.
  cbv [kindr.RotationVector.toImplementation].
  rewrite Hv. reflexivity.
Qed.

(** From the threshold on: the expansion in the half angle. *)
Lemma convert_RotationVector_large (v1 v2 v3 : Scalar) :
  let v := Eigen.norm (Eigen.mkVector3 v1 v2 v3) in
  let s := sin (v / 2) in
  let c := cos (v / 2) in
  dummy_precision <= v ->
  kindr.RotationMatrix.toImplementation
    (kindr.ConversionTraits.convert_RotationVector dummy_precision
       (kindr.RotationVector.mk (Eigen.mkVector3 v1 v2 v3)))
  = Eigen.mkMatrix3
      ((v * v * (c * c) - s * s * (- (v1 * v1) + v2 * v2 + v3 * v3)) / (v * v))
      (- (2 * s * (c * v * v3 - s * v1 * v2)) / (v * v))
      (2 * s * (s * v1 * v3 + c * v * v2) / (v * v))
      (2 * s * (c * v * v3 + s * v1 * v2) / (v * v))
      ((v * v * (c * c) - s * s * (v1 * v1 - v2 * v2 + v3 * v3)) / (v * v))
      (- (2 * s * (c * v * v1 - s * v2 * v3)) / (v * v))
      (2 * s * (s * v1 * v3 - c * v * v2) / (v * v))
      (2 * s * (c * v * v1 + s * v2 * v3) / (v * v))
      ((v * v * (c * c) - s * s * (v1 * v1 + v2 * v2 - v3 * v3)) / (v * v)).
Proof.
  intros v s c Hv. apply Rltb_false in Hv.
  unfold kindr.ConversionTraits.convert_RotationVector.
  cbv [kindr.RotationVector.toImplementation].
  fold v. rewrite Hv.
  replace (v * (1 / 2)) with (v / 2) by (unfold Rdiv; ring).
  fold s. fold c. matrix_ext; unfold Rdiv; ring.
Qed.

(** C1: the conversion has two branches, selected by the norm [v] of the
    vector against [dummy_precision].  Below the threshold the result is
    the first-order approximation, the identity plus the skew-symmetric
    matrix of the vector; from the threshold on it is the closed form in
    the sine [s] and the cosine [c] of the half angle [v / 2]. *)
Theorem convert_RotationVector_branches (v1 v2 v3 : Scalar) :
  let rv := kindr.RotationVector.mk (Eigen.mkVector3 v1 v2 v3) in
  let v := Eigen.norm (kindr.RotationVector.toImplementation rv) in
  let s := sin (v / 2) in
  let c := cos (v / 2) in
  (v < dummy_precision ->
   kindr.RotationMatrix.toImplementation
     (kindr.ConversionTraits.convert_RotationVector dummy_precision rv)
   = Eigen.mkMatrix3 1 (- v3) v2
                     v3 1 (- v1)
                     (- v2) v1 1) /\
  (dummy_precision <= v ->
   kindr.RotationMatrix.toImplementation
     (kindr.ConversionTraits.convert_RotationVector dummy_precision rv)
   = Eigen.mkMatrix3
       ((v * v * (c * c) - s * s * (- (v1 * v1) + v2 * v2 + v3 * v3)) / (v * v))
       (- (2 * s * (c * v * v3 - s * v1 * v2)) / (v * v))
       (2 * s * (s * v1 * v3 + c * v * v2) / (v * v))
       (2 * s * (c * v * v3 + s * v1 * v2) / (v * v))
       ((v * v * (c * c) - s * s * (v1 * v1 - v2 * v2 + v3 * v3)) / (v * v))
       (- (2 * s * (c * v * v1 - s * v2 * v3)) / (v * v))
       (2 * s * (s * v1 * v3 - c * v * v2) / (v * v))
       (2 * s * (c * v * v1 + s * v2 * v3) / (v * v))
       ((v * v * (c * c) - s * s * (v1 * v1 + v2 * v2 - v3 * v3)) / (v * v))).
Proof.
  intros rv v s c. split; intros Hv.
  - apply convert_RotationVector_small, Hv.
  - apply convert_RotationVector_large, Hv.
Qed.

Hypothesis dummy_precision_pos : 0 < dummy_precision.

(** From the threshold on, the closed form is the rotation matrix of the
    unit quaternion of the half angle, [cos (v/2)] and [sin (v/2)] times
    the unit axis. *)
Lemma convert_RotationVector_half_angle (v1 v2 v3 : Scalar) :
  let v := Eigen.norm (Eigen.mkVector3 v1 v2 v3) in
  dummy_precision <= v ->
  kindr.RotationMatrix.toImplementation
    (kindr.ConversionTraits.convert_RotationVector dummy_precision
       (kindr.RotationVector.mk (Eigen.mkVector3 v1 v2 v3)))
  = Eigen.toRotationMatrix
      (Eigen.mkQuaternion (cos (v / 2))
         (sin (v / 2) * (v1 / v)) (sin (v / 2) * (v2 / v))
         (sin (v / 2) * (v3 / v))).
Proof.
  intros v Hv.
  rewrite (convert_RotationVector_large v1 v2 v3 Hv). fold v.
  assert (Hv0 : v <> 0) by lra.
  pose proof (norm_square (Eigen.mkVector3 v1 v2 v3)) as Hn.
  simpl in Hn. fold v in Hn.
  pose proof (sin2_cos2 (v / 2)) as Hsc. unfold Rsqr in Hsc.
  set (s := sin (v / 2)) in *. set (c := cos (v / 2)) in *.
  assert (Hc : c * c = 1 - s * s) by lra.
  unfold Eigen.toRotationMatrix. matrix_ext; try (field; exact Hv0).
  - rewrite Hc. replace (v1 * v1) with (v * v - v2 * v2 - v3 * v3) by lra.
    field; exact Hv0.
  - rewrite Hc. replace (v2 * v2) with (v * v - v1 * v1 - v3 * v3) by lra.
    field; exact Hv0.
  - rewrite Hc. replace (v3 * v3) with (v * v - v1 * v1 - v2 * v2) by lra.
    field; exact Hv0.
Qed.

(** C6: the zero rotation vector converts to the identity matrix
    exactly, every diagonal coefficient 1 and every other one 0. *)
Theorem convert_zero_RotationVector :
  kindr.RotationMatrix.toImplementation
    (kindr.ConversionTraits.convert_RotationVector dummy_precision
       (kindr.RotationVector.mk (Eigen.mkVector3 0 0 0)))
  = Eigen.mkMatrix3 1 0 0
                    0 1 0
                    0 0 1.
Proof.
  rewrite convert_RotationVector_small.
  - rewrite Ropp_0. reflexivity.
  - rewrite norm_zero. exact dummy_precision_pos.
Qed.

End RotationVectorConversion.

(** With a precision of 1e-12: the zero vector takes the first branch,
    the vector (0, 0, 2), of norm 2, the second. *)
Lemma convert_RotationVector_branches_witness :
  (Eigen.norm (Eigen.mkVector3 0 0 0) < 1e-12 /\
   kindr.RotationMatrix.toImplementation
     (kindr.ConversionTraits.convert_RotationVector 1e-12
        (kindr.RotationVector.mk (Eigen.mkVector3 0 0 0)))
   = Eigen.mkMatrix3 1 (- 0) 0 0 1 (- 0) (- 0) 0 1) /\
  (1e-12 <= Eigen.norm (Eigen.mkVector3 0 0 2) /\
   Eigen.m22
     (kindr.RotationMatrix.toImplementation
        (kindr.ConversionTraits.convert_RotationVector 1e-12
           (kindr.RotationVector.mk (Eigen.mkVector3 0 0 2))))
   = (2 * 2 * (cos (2 / 2) * cos (2 / 2))
      - sin (2 / 2) * sin (2 / 2) * (0 * 0 + 0 * 0 - 2 * 2)) / (2 * 2)).
Proof.
  assert (H0 : Eigen.norm (Eigen.mkVector3 0 0 0) < 1e-12)
    by (rewrite norm_zero; lra).
  assert (E2 : Eigen.norm (Eigen.mkVector3 0 0 2) = 2).
  { unfold Eigen.norm, Eigen.squaredNorm; simpl.
    replace (0 * 0 + 0 * 0 + 2 * 2) with (2 * 2) by ring.
    apply sqrt_square. lra. }
  assert (H2 : 1e-12 <= Eigen.norm (Eigen.mkVector3 0 0 2))
    by (rewrite E2; lra).
  split; split; trivial.
  - exact (proj1 (convert_RotationVector_branches 1e-12 0 0 0) H0).
  - rewrite (proj2 (convert_RotationVector_branches 1e-12 0 0 2) H2).
    simpl. rewrite E2. reflexivity.
Defined.

(** With a precision of 1e-12 the zero vector converts to the identity. *)
Lemma convert_zero_RotationVector_witness :
  0 < 1e-12 /\
  kindr.RotationMatrix.toImplementation
    (kindr.ConversionTraits.convert_RotationVector 1e-12
       (kindr.RotationVector.mk (Eigen.mkVector3 0 0 0)))
  = Eigen.mkMatrix3 1 0 0 0 1 0 0 0 1.
Proof.
  assert (H : 0 < 1e-12) by lra.
  split; [exact H | exact (convert_zero_RotationVector 1e-12 H)].
Defined.

(** ** Matrices that pass the validity checks *)

Lemma product_assoc (a b c : Eigen.Matrix3) :
  Eigen.product (Eigen.product a b) c = Eigen.product a (Eigen.product b c).
Proof. matrix_ext; ring. Qed.

Lemma product_Identity_r (a : Eigen.Matrix3) :
  Eigen.product a Eigen.Identity = a.
Proof. destruct a. matrix_ext; ring. Qed.

Lemma transpose_product (a b : Eigen.Matrix3) :
  Eigen.transpose (Eigen.product a b)
  = Eigen.product (Eigen.transpose b) (Eigen.transpose a).
Proof. matrix_ext; ring. Qed.

Lemma determinant_product (a b : Eigen.Matrix3) :
  Eigen.determinant (Eigen.product a b)
  = Eigen.determinant a * Eigen.determinant b.
Proof. unfold Eigen.determinant; simpl; ring. Qed.

(** The composition of two valid rotation matrices is valid. *)
Lemma valid_mult (A B : kindr.RotationMatrix.t) :
  valid A -> valid B -> valid (kindr.MultiplicationTraits.mult A B).
Proof.
  destruct A as [a], B as [b]. unfold valid, orthogonal; simpl.
  intros [Ha Da] [Hb Db]. split.
  - rewrite transpose_product, product_assoc.
    rewrite <- (product_assoc b), Hb.
    replace (Eigen.product Eigen.Identity (Eigen.transpose a))
      with (Eigen.transpose a) by (matrix_ext; ring).
    exact Ha.
  - unfold kindr.RotationMatrix.determinant in *; simpl in *.
    rewrite determinant_product, Da, Db. ring.
Qed.

(** The elementary rotations are valid. *)
Lemma Rx_valid (a : Scalar) : valid (Rx a).
Proof.
  pose proof (sin2_cos2 a) as H. unfold Rsqr in H.
  split.
  - unfold orthogonal, Eigen.Identity. matrix_ext; nsatz.
  - unfold kindr.RotationMatrix.determinant, Eigen.determinant; simpl.
    nsatz.
Qed.

Lemma Ry_valid (a : Scalar) : valid (Ry a).
Proof.
  pose proof (sin2_cos2 a) as H. unfold Rsqr in H.
  split.
  - unfold orthogonal, Eigen.Identity. matrix_ext; nsatz.
  - unfold kindr.RotationMatrix.determinant, Eigen.determinant; simpl.
    nsatz.
Qed.

Lemma Rz_valid (a : Scalar) : valid (Rz a).
Proof.
  pose proof (sin2_cos2 a) as H. unfold Rsqr in H.
  split.
  - unfold orthogonal, Eigen.Identity. matrix_ext; nsatz.
  - unfold kindr.RotationMatrix.determinant, Eigen.determinant; simpl.
    nsatz.
Qed.

(** A value is [near] itself within any tolerance that is not negative. *)
Lemma near_refl (a eps : Scalar) : 0 <= eps -> near a a eps = true.
Proof.
  intros H. unfold near. apply Rleb_true.
  replace (a - a) with 0 by ring. rewrite Rabs_R0. exact H.
Qed.

Lemma near_true (a b eps : Scalar) : near a b eps = true <-> Rabs (a - b) <= eps.
Proof. apply Rleb_true. Qed.

Lemma near_false (a b eps : Scalar) : near a b eps = false <-> Rabs (a - b) > eps.
Proof.
  unfold near, Rleb. destruct (Rle_dec (Rabs (a - b)) eps); split;
    try congruence; lra.
Qed.

Lemma matrix_near_refl (a : Eigen.Matrix3) (eps : Scalar) :
  0 <= eps -> matrix_near a a eps = true.
Proof.
  intros H. unfold matrix_near. rewrite !near_refl by exact H. reflexivity.
Qed.

(** The checked constructor accepts every valid matrix, in either build. *)
Lemma of_Base_valid (NDEBUG : bool) (m : Eigen.Matrix3) :
  valid (kindr.RotationMatrix.mk m) ->
  kindr.RotationMatrix.of_Base NDEBUG m = Ok (kindr.RotationMatrix.mk m).
Proof.
  intros [Ho Hd]. unfold orthogonal in Ho. simpl in Ho.
  unfold kindr.RotationMatrix.determinant in Hd. simpl in Hd.
  unfold kindr.RotationMatrix.of_Base, KINDR_ASSERT_MATRIX_NEAR_DBG,
    KINDR_ASSERT_SCALAR_NEAR_DBG.
  rewrite Ho, Hd, matrix_near_refl, near_refl by lra.
  destruct NDEBUG; reflexivity.
Qed.

(** ** Conversion from Euler angles Z-Y-X *)

(** The matrix the conversion computes is the product of the elementary
    rotations about X, Y and Z, in this order. *)
Lemma zyx_matrix_product (first second third : Scalar) :
  let t2 := cos second in
  let t3 := sin first in
  let t4 := cos first in
  let t5 := sin second in
  let t6 := cos third in
  let t7 := sin third in
  kindr.RotationMatrix.mk
    (Eigen.mkMatrix3
       (t2 * t4) (- t2 * t3) t5
       (t3 * t6 + t4 * t5 * t7) (t4 * t6 - t3 * t5 * t7) (- t2 * t7)
       (t3 * t7 - t4 * t5 * t6) (t4 * t7 + t3 * t5 * t6) (t2 * t6))
  = kindr.MultiplicationTraits.mult (Rx third)
      (kindr.MultiplicationTraits.mult (Ry second) (Rz first)).
Proof.
  intros. unfold kindr.MultiplicationTraits.mult, kindr.RotationMatrix.assign.
  f_equal. matrix_ext; subst t2 t3 t4 t5 t6 t7; ring.
Qed.

(** The conversion passes the checks of the constructor it ends with. *)
Lemma convert_EulerAnglesZyx_Ok (NDEBUG : bool) (zyx : kindr.EulerAnglesZyx.t) :
  kindr.ConversionTraits.convert_EulerAnglesZyx NDEBUG zyx
  = Ok (kindr.MultiplicationTraits.mult (Rx (kindr.EulerAnglesZyx.x zyx))
          (kindr.MultiplicationTraits.mult (Ry (kindr.EulerAnglesZyx.y zyx))
                                           (Rz (kindr.EulerAnglesZyx.z zyx)))).
Proof.
  unfold kindr.ConversionTraits.convert_EulerAnglesZyx. cbv zeta.
  rewrite of_Base_valid; rewrite zyx_matrix_product.
  - reflexivity.
  - apply valid_mult; [apply Rx_valid|].
    apply valid_mult; [apply Ry_valid | apply Rz_valid].
Qed.

(** C2, as the code has it: the conversion of EulerAnglesZyx(first,
    second, third) never fails and yields the product
    Rx(third) * Ry(second) * Rz(first) of elementary active rotations: the
    rotation about Z by the first angle is applied first, then the ones
    about the fixed Y and X axes. *)
Theorem convert_EulerAnglesZyx_product
  (NDEBUG : bool) (first second third : Scalar) :
  kindr.ConversionTraits.convert_EulerAnglesZyx NDEBUG
    (kindr.EulerAnglesZyx.mk first second third)
  = Ok (kindr.MultiplicationTraits.mult (Rx third)
          (kindr.MultiplicationTraits.mult (Ry second) (Rz first))).
Proof.
  apply (convert_EulerAnglesZyx_Ok NDEBUG
           (kindr.EulerAnglesZyx.mk first second third)).
Qed.

(** For a quarter turn about Z followed by a quarter turn about Y the
    conversion is not the product Rz(first) * Ry(second) * Rx(third), in
    a debug build or not: the coefficient (0,2) of the conversion is 1,
    the one of that product 0. *)
Lemma convert_EulerAnglesZyx_not_ZYX :
  kindr.ConversionTraits.convert_EulerAnglesZyx false
    (kindr.EulerAnglesZyx.mk (PI / 2) (PI / 2) 0)
  <> Ok (kindr.MultiplicationTraits.mult (Rz (PI / 2))
           (kindr.MultiplicationTraits.mult (Ry (PI / 2)) (Rx 0))) /\
  kindr.ConversionTraits.convert_EulerAnglesZyx true
    (kindr.EulerAnglesZyx.mk (PI / 2) (PI / 2) 0)
  <> Ok (kindr.MultiplicationTraits.mult (Rz (PI / 2))
           (kindr.MultiplicationTraits.mult (Ry (PI / 2)) (Rx 0))).
Proof.
  split; rewrite convert_EulerAnglesZyx_Ok; intros H;
    apply (f_equal (fun r => match r with
                             | Ok R => Eigen.m02 (kindr.RotationMatrix.toImplementation R)
                             | Throw _ => 0
                             end)) in H;
    simpl in H; rewrite sin_PI2, cos_PI2, sin_0, cos_0 in H; lra.
Qed.

(** ** Fixing a drifted matrix *)

Lemma determinant_scaled (k : Scalar) (m : Eigen.Matrix3) :
  Eigen.determinant (Eigen.scaled k m) = k * k * k * Eigen.determinant m.
Proof. unfold Eigen.determinant; simpl; ring. Qed.

Lemma scaled_1 (m : Eigen.Matrix3) : Eigen.scaled 1 m = m.
Proof. destruct m. matrix_ext; ring. Qed.

Lemma product_scaled (k l : Scalar) (a b : Eigen.Matrix3) :
  Eigen.product (Eigen.scaled k a) (Eigen.scaled l b)
  = Eigen.scaled (k * l) (Eigen.product a b).
Proof. matrix_ext; ring. Qed.

Lemma transpose_scaled (k : Scalar) (m : Eigen.Matrix3) :
  Eigen.transpose (Eigen.scaled k m) = Eigen.scaled k (Eigen.transpose m).
Proof. reflexivity. Qed.

(** The cube of the cube root of a positive number. *)
Lemma Rpower_third_cube (d : Scalar) :
  0 < d -> Rpower d (1 / 3) * Rpower d (1 / 3) * Rpower d (1 / 3) = d.
Proof.
  intros Hd.
  replace (Rpower d (1 / 3) * Rpower d (1 / 3) * Rpower d (1 / 3))
    with (Rpower d (1 / 3) ^ 3) by ring.
  rewrite <- Rpower_pow by apply exp_pos.
  rewrite Rpower_mult.
  replace (1 / 3 * INR 3) with 1 by (simpl; field).
  apply Rpower_1, Hd.
Qed.

Lemma Rpower_one (y : Scalar) : Rpower 1 y = 1.
Proof. unfold Rpower. rewrite ln_1, Rmult_0_r. apply exp_0. Qed.

Section Fixing.

(** [pow] of <cmath>: on a positive base the real power; nothing is
    assumed of what it returns on a base that is zero or negative. *)
Variable pow : Scalar -> Scalar -> Scalar.
Hypothesis pow_positive : forall x y : Scalar, 0 < x -> pow x y = Rpower x y.

(** [fix] multiplies the nine coefficients by the one factor. *)
Lemma fix_scaled (R : kindr.RotationMatrix.t) :
  kindr.RotationMatrix.toImplementation (kindr.FixingTraits.fix_ pow R)
  = Eigen.scaled (1 / pow (kindr.RotationMatrix.determinant R) (1 / 3))
      (kindr.RotationMatrix.toImplementation R).
Proof. reflexivity. Qed.

(** The factor is positive when the determinant is, and its cube is
    the inverse of the determinant. *)
Lemma factor_cube (d : Scalar) :
  0 < d ->
  0 < 1 / pow d (1 / 3) /\
  (1 / pow d (1 / 3)) * (1 / pow d (1 / 3)) * (1 / pow d (1 / 3)) * d = 1.
Proof.
  intros Hd. rewrite pow_positive by exact Hd.
  pose proof (Rpower_third_cube d Hd) as Hc.
  assert (Hp : 0 < Rpower d (1 / 3)) by apply exp_pos.
  split.
  - apply Rdiv_lt_0_compat; lra.
  - rewrite <- Hc at 4. field. lra.
Qed.

Lemma determinant_fix (R : kindr.RotationMatrix.t) :
  0 < kindr.RotationMatrix.determinant R ->
  kindr.RotationMatrix.determinant (kindr.FixingTraits.fix_ pow R) = 1.
Proof.
  intros Hd. unfold kindr.RotationMatrix.determinant at 1.
  rewrite fix_scaled, determinant_scaled.
  apply (factor_cube _ Hd).
Qed.

Lemma fix_determinant_1 (R : kindr.RotationMatrix.t) :
  kindr.RotationMatrix.determinant R = 1 ->
  kindr.FixingTraits.fix_ pow R = R.
Proof.
  intros Hd. destruct R as [m].
  assert (H : kindr.RotationMatrix.toImplementation
                (kindr.FixingTraits.fix_ pow (kindr.RotationMatrix.mk m)) = m).
  { rewrite fix_scaled, Hd, pow_positive, Rpower_one by lra.
    replace (1 / 1) with 1 by field. apply scaled_1. }
  destruct (kindr.FixingTraits.fix_ pow (kindr.RotationMatrix.mk m)).
  simpl in H. rewrite H. reflexivity.
Qed.

(** C8: [fix] multiplies each of the nine coefficients by the one scalar
    factor 1 / pow(det R, 1/3), so the result is a uniform multiple of
    the matrix.  When the determinant is positive, the result has
    determinant 1.  The defect of orthogonality is only rescaled: the
    product of the result with its transpose is the one of the matrix
    times the square of the factor, so the result is orthogonal only if
    the product of the matrix with its transpose was a multiple of the
    identity. *)
Theorem fix_uniform_scaling (R : kindr.RotationMatrix.t) :
  let M := kindr.RotationMatrix.toImplementation R in
  let F := kindr.RotationMatrix.toImplementation
             (kindr.FixingTraits.fix_ pow R) in
  let factor := 1 / pow (kindr.RotationMatrix.determinant R) (1 / 3) in
  F = Eigen.scaled factor M /\
  (0 < kindr.RotationMatrix.determinant R ->
   kindr.RotationMatrix.determinant (kindr.FixingTraits.fix_ pow R) = 1) /\
  Eigen.product F (Eigen.transpose F)
  = Eigen.scaled (factor * factor) (Eigen.product M (Eigen.transpose M)) /\
  (0 < kindr.RotationMatrix.determinant R ->
   orthogonal (kindr.FixingTraits.fix_ pow R) ->
   Eigen.product M (Eigen.transpose M)
   = Eigen.scaled (1 / (factor * factor)) Eigen.Identity).
Proof.
  intros M F factor.
  assert (HF : F = Eigen.scaled factor M) by apply fix_scaled.
  assert (HP : Eigen.product F (Eigen.transpose F)
               = Eigen.scaled (factor * factor)
                   (Eigen.product M (Eigen.transpose M))).
  { rewrite HF, transpose_scaled. apply product_scaled. }
  repeat split; trivial.
  - apply determinant_fix.
  - intros Hd Ho. unfold orthogonal in Ho. fold F in Ho.
    rewrite HP in Ho.
    assert (Hf : 0 < factor) by apply (factor_cube _ Hd).
    rewrite <- Ho. destruct (Eigen.product M (Eigen.transpose M)).
    matrix_ext; field; lra.
Qed.

(** C5: [fix] is idempotent on every matrix of positive determinant, as
    a rotation matrix is, and leaves a valid matrix, orthogonal and of
    determinant 1, as it is. *)
Theorem fix_idempotent (R : kindr.RotationMatrix.t) :
  (0 < kindr.RotationMatrix.determinant R ->
   kindr.FixingTraits.fix_ pow (kindr.FixingTraits.fix_ pow R)
   = kindr.FixingTraits.fix_ pow R) /\
  (valid R -> kindr.FixingTraits.fix_ pow R = R).
Proof.
  split.
  - intros Hd. apply fix_determinant_1, determinant_fix, Hd.
  - intros [_ Hd]. apply fix_determinant_1, Hd.
Qed.

End Fixing.

(** With the real power for [pow]: the matrix with the diagonal 2, 1/2, 1
    has determinant 1, which is positive, and so has its [fix]. *)
Lemma fix_uniform_scaling_witness :
  0 < kindr.RotationMatrix.determinant
        (kindr.RotationMatrix.mk (Eigen.mkMatrix3 2 0 0 0 (1 / 2) 0 0 0 1)) /\
  kindr.RotationMatrix.determinant
    (kindr.FixingTraits.fix_ Rpower
       (kindr.RotationMatrix.mk (Eigen.mkMatrix3 2 0 0 0 (1 / 2) 0 0 0 1)))
  = 1.
Proof.
  assert (Hd : 0 < kindr.RotationMatrix.determinant
                     (kindr.RotationMatrix.mk
                        (Eigen.mkMatrix3 2 0 0 0 (1 / 2) 0 0 0 1))).
  { unfold kindr.RotationMatrix.determinant, Eigen.determinant; simpl. lra. }
  split; [exact Hd|].
  exact (proj1 (proj2 (fix_uniform_scaling Rpower
                         (fun x y _ => eq_refl) _)) Hd).
Defined.

(** [fix] does not make that matrix orthogonal: it leaves it as it is. *)
Lemma fix_not_orthogonalizing :
  let D := kindr.RotationMatrix.mk (Eigen.mkMatrix3 2 0 0 0 (1 / 2) 0 0 0 1) in
  kindr.FixingTraits.fix_ Rpower D = D /\ ~ orthogonal D.
Proof.
  intros D. split.
  - apply fix_determinant_1; [reflexivity|].
    unfold kindr.RotationMatrix.determinant, Eigen.determinant; simpl. lra.
  - intros H. apply (f_equal Eigen.m00) in H. simpl in H. lra.
Qed.

(** With the real power for [pow]: twice the identity has the positive
    determinant 8, and the identity is valid. *)
Lemma fix_idempotent_witness :
  (0 < kindr.RotationMatrix.determinant
         (kindr.RotationMatrix.mk (Eigen.mkMatrix3 2 0 0 0 2 0 0 0 2)) /\
   kindr.FixingTraits.fix_ Rpower
     (kindr.FixingTraits.fix_ Rpower
        (kindr.RotationMatrix.mk (Eigen.mkMatrix3 2 0 0 0 2 0 0 0 2)))
   = kindr.FixingTraits.fix_ Rpower
       (kindr.RotationMatrix.mk (Eigen.mkMatrix3 2 0 0 0 2 0 0 0 2))) /\
  (valid kindr.RotationMatrix.default /\
   kindr.FixingTraits.fix_ Rpower kindr.RotationMatrix.default
   = kindr.RotationMatrix.default).
Proof.
  assert (Hd : 0 < kindr.RotationMatrix.determinant
                     (kindr.RotationMatrix.mk
                        (Eigen.mkMatrix3 2 0 0 0 2 0 0 0 2))).
  { unfold kindr.RotationMatrix.determinant, Eigen.determinant; simpl. lra. }
  assert (Hv : valid kindr.RotationMatrix.default).
  { split.
    - unfold orthogonal, Eigen.Identity. matrix_ext; ring.
    - unfold kindr.RotationMatrix.determinant, Eigen.determinant; simpl. ring. }
  split; split; trivial.
  - exact (proj1 (fix_idempotent Rpower (fun x y _ => eq_refl) _) Hd).
  - exact (proj2 (fix_idempotent Rpower (fun x y _ => eq_refl)
                    kindr.RotationMatrix.default) Hv).
Defined.

(** ** Where the error is raised *)

Lemma throws_Ok {A : Type} (a : A) : ~ throws (Ok a).
Proof. intros [e H]. discriminate H. Qed.

Lemma throws_Throw {A : Type} (e : InvalidRepresentation) :
  throws (Throw e : result A).
Proof. exists e. reflexivity. Qed.

Lemma matrix_near_true (a b : Eigen.Matrix3) (eps : Scalar) :
  matrix_near a b eps = true <-> matrix_within a b eps.
Proof.
  unfold matrix_near, matrix_within.
  rewrite !Bool.andb_true_iff, !near_true. tauto.
Qed.

(** A scalar check followed by the construction of the value throws
    exactly when the two scalars differ by more than the tolerance. *)
Lemma ASSERT_SCALAR_NEAR_throws {A : Type} (NDEBUG : bool)
  (a b eps : Scalar) (message : string) (v : A) :
  throws (ASSERT_SCALAR_NEAR NDEBUG a b eps message ;;; Ok v) <->
  NDEBUG = false /\ Rabs (a - b) > eps.
Proof.
  unfold ASSERT_SCALAR_NEAR. destruct NDEBUG; simpl.
  - split; [intros H; destruct (throws_Ok _ H) | intros [H _]; discriminate H].
  - destruct (near a b eps) eqn:E; simpl.
    + apply near_true in E. split; [intros H | intros [_ H]; lra].
      destruct (throws_Ok _ H).
    + apply near_false in E.
      split; [intros _; split; trivial | intros _; apply throws_Throw].
Qed.

Lemma KINDR_ASSERT_SCALAR_NEAR_DBG_throws {A : Type}
  (a b eps : Scalar) (message : string) (v : A) :
  throws (KINDR_ASSERT_SCALAR_NEAR_DBG false a b eps message ;;; Ok v) <->
  Rabs (a - b) > eps.
Proof.
  unfold KINDR_ASSERT_SCALAR_NEAR_DBG. destruct (near a b eps) eqn:E; simpl.
  - apply near_true in E. split; [intros H | intros H; lra].
    destruct (throws_Ok _ H).
  - apply near_false in E. split; [trivial | intros _; apply throws_Throw].
Qed.

(** The two checks of the matrix constructors. *)
Lemma of_Base_throws (NDEBUG : bool) (m : Eigen.Matrix3) :
  throws (kindr.RotationMatrix.of_Base NDEBUG m) <->
  NDEBUG = false /\ ~ rotation_within m 1e-4.
Proof.
  unfold kindr.RotationMatrix.of_Base, KINDR_ASSERT_MATRIX_NEAR_DBG,
    rotation_within.
  destruct NDEBUG.
  - simpl. split; [intros H; destruct (throws_Ok _ H)
                  | intros [H _]; discriminate H].
  - destruct (matrix_near _ _ _) eqn:E; cbn [bind].
    + apply matrix_near_true in E.
      rewrite KINDR_ASSERT_SCALAR_NEAR_DBG_throws. split.
      * intros H. split; [reflexivity|]. intros [_ H']. lra.
      * intros [_ H]. apply Rnot_le_gt. tauto.
    + assert (E' : ~ matrix_within
                     (Eigen.product m (Eigen.transpose m)) Eigen.Identity 1e-4).
      { intros H. apply matrix_near_true in H. congruence. }
      split; [intros _; split; [reflexivity | tauto]
             | intros _; apply throws_Throw].
Qed.

Lemma qsquaredNorm_nonneg (q : Eigen.Quaternion) : 0 <= Eigen.qsquaredNorm q.
Proof. unfold Eigen.qsquaredNorm. nra. Qed.

Lemma qnorm_qconjugate (q : Eigen.Quaternion) :
  Eigen.qnorm (Eigen.qconjugate q) = Eigen.qnorm q.
Proof.
  unfold Eigen.qnorm, Eigen.qsquaredNorm; simpl. f_equal. ring.
Qed.

(** A quaternion of positive norm has a normalization of norm 1. *)
Lemma qnorm_qnormalized (q : Eigen.Quaternion) :
  0 < Eigen.qnorm q -> Eigen.qnorm (Eigen.qnormalized q) = 1.
Proof.
  intros Hn.
  pose proof (sqrt_sqrt _ (qsquaredNorm_nonneg q)) as Hs.
  fold (Eigen.qnorm q) in Hs.
  unfold Eigen.qnorm at 1. unfold Eigen.qsquaredNorm, Eigen.qnormalized; simpl.
  set (n := Eigen.qnorm q) in *.
  replace (Eigen.qw q / n * (Eigen.qw q / n) + Eigen.qx q / n * (Eigen.qx q / n)
           + Eigen.qy q / n * (Eigen.qy q / n) + Eigen.qz q / n * (Eigen.qz q / n))
    with (Eigen.qsquaredNorm q / (n * n))
    by (unfold Eigen.qsquaredNorm; field; lra).
  rewrite <- Hs. replace (n * n / (n * n)) with 1 by (field; lra).
  apply sqrt_1.
Qed.

Lemma throws_finished {A : Type} (c : result A) :
  throws (finished c) <-> throws c.
Proof.
  destruct c as [a | e]; simpl.
  - split; intros H; [destruct (throws_Ok _ H) | destruct (throws_Ok _ H)].
  - split; intros _; apply throws_Throw.
Qed.

(** The checks of the unit quaternion. *)
Lemma of_Quaternion_throws (NDEBUG : bool) (other : rm.Quaternion.t) :
  throws (rm.UnitQuaternion.of_Quaternion NDEBUG other) <->
  NDEBUG = false /\ Rabs (rm.Quaternion.norm other - 1) > 1e-6.
Proof. apply ASSERT_SCALAR_NEAR_throws. Qed.

Lemma of_Implementation_throws (NDEBUG : bool) (other : Eigen.Quaternion) :
  throws (rm.UnitQuaternion.of_Implementation NDEBUG other) <->
  NDEBUG = false /\ Rabs (Eigen.qnorm other - 1) > 1e-6.
Proof. apply ASSERT_SCALAR_NEAR_throws. Qed.

Lemma inverse_throws (NDEBUG : bool) (this : rm.UnitQuaternion.t) :
  throws (rm.UnitQuaternion.inverse NDEBUG this) <->
  NDEBUG = false /\ Rabs (rm.UnitQuaternion.norm this - 1) > 1e-6.
Proof.
  unfold rm.UnitQuaternion.inverse. rewrite of_Quaternion_throws.
  unfold rm.UnitQuaternion.norm, rm.Quaternion.norm, rm.Quaternion.conjugate;
    simpl.
  rewrite qnorm_qconjugate. reflexivity.
Qed.

Lemma call_Quaternion_throws (NDEBUG : bool)
  (this : rm.UnitQuaternion.t) (quat : rm.Quaternion.t) :
  throws (rm.UnitQuaternion.call_Quaternion NDEBUG this quat) <->
  NDEBUG = false /\ Rabs (rm.Quaternion.norm quat - 1) > 1e-6.
Proof.
  destruct this as [this], quat as [[qw qx qy qz]].
  apply ASSERT_SCALAR_NEAR_throws.
Qed.

(** A conversion to a rotation matrix returns a matrix, whatever the
    class of the rotation it is made from. *)
Lemma FromRotation_convert_Ok (dummy_precision : Scalar) (NDEBUG : bool)
  (other : kindr.RotationBase) :
  exists m, kindr.FromRotation.convert dummy_precision NDEBUG other = Ok m.
Proof.
  destruct other; simpl; try (eexists; reflexivity).
  rewrite convert_EulerAnglesZyx_Ok. eexists; reflexivity.
Qed.

(** A call throws exactly when it runs a validity check, in a debug
    build, and the check fails. *)
Lemma outcome_throws (NDEBUG : bool) (dummy_precision : Scalar)
  (pow : Scalar -> Scalar -> Scalar) (c : call) :
  throws (outcome NDEBUG dummy_precision pow c) <->
  NDEBUG = false /\ failed_check c.
Proof.
  assert (P : forall (A : Type) (a : A),
             throws (finished (Ok a)) <-> NDEBUG = false /\ False).
  { intros A a. split; [intros H; destruct (throws_Ok _ H) | tauto]. }
  assert (Q : forall (A : Type) (c : result kindr.RotationMatrix.t)
                     (k : kindr.RotationMatrix.t -> A),
             (exists m, c = Ok m) ->
             throws (finished (bind c (fun m => Ok (k m)))) <->
             NDEBUG = false /\ False).
  { intros A c0 k [m ->]. apply P. }
  destruct c; cbn [outcome failed_check]; try apply P.
  - rewrite throws_finished. apply of_Base_throws.
  - rewrite throws_finished. apply of_Base_throws.
  - apply Q, FromRotation_convert_Ok.
  - apply Q, FromRotation_convert_Ok.
  - apply Q, FromRotation_convert_Ok.
  - destruct (FromRotation_convert_Ok dummy_precision NDEBUG other) as [m ->].
    apply P.
  - rewrite throws_finished. apply of_Implementation_throws.
  - rewrite throws_finished. apply ASSERT_SCALAR_NEAR_throws.
  - rewrite throws_finished. apply of_Quaternion_throws.
  - rewrite throws_finished. apply of_Implementation_throws.
  - rewrite throws_finished. apply call_Quaternion_throws.
  - rewrite throws_finished. apply inverse_throws.
  - rewrite throws_finished. apply inverse_throws.
Qed.

(** C4, as the code has it.  The error is raised by the validity checks
    only, which are debug-mode checks: in a non-debug build no call
    fails.  The checks sit in the checked constructors and in
    [UnitQuaternion::operator()] on a quaternion, which is no
    constructor.  In a debug build the constructor of a matrix from nine
    scalars fails exactly when the matrix is not orthogonal with
    determinant 1 within 1e-4; the constructor of a unit quaternion from
    four scalars, and [operator()], fail exactly when the norm differs
    from 1 by more than 1e-6.  The conversion from Euler angles, which
    ends with a checked constructor, never fails.  [inverse] and
    [conjugate] of a unit quaternion check the norm again: they fail
    exactly when the norm of the operand differs from 1 by more than
    1e-6, so never on a valid operand.  The conversion of a quaternion of
    positive norm to a unit quaternion does not fail.  Of all the calls
    of the two headers, one throws exactly when it runs one of these
    checks in a debug build and the check fails. *)
Theorem InvalidRepresentation_raised :
  (forall (NDEBUG : bool) (r11 r12 r13 r21 r22 r23 r31 r32 r33 : Scalar),
      throws (kindr.RotationMatrix.of_scalars NDEBUG
                r11 r12 r13 r21 r22 r23 r31 r32 r33) <->
      NDEBUG = false /\
      ~ rotation_within
          (Eigen.mkMatrix3 r11 r12 r13 r21 r22 r23 r31 r32 r33) 1e-4) /\
  (forall (NDEBUG : bool) (w x y z : Scalar),
      throws (rm.UnitQuaternion.of_coefficients NDEBUG w x y z) <->
      NDEBUG = false /\
      Rabs (sqrt (w * w + x * x + y * y + z * z) - 1) > 1e-6) /\
  (forall (NDEBUG : bool) (zyx : kindr.EulerAnglesZyx.t),
      ~ throws (kindr.ConversionTraits.convert_EulerAnglesZyx NDEBUG zyx)) /\
  (forall (NDEBUG : bool) (q : rm.UnitQuaternion.t),
      (throws (rm.UnitQuaternion.inverse NDEBUG q) <->
       NDEBUG = false /\ Rabs (rm.UnitQuaternion.norm q - 1) > 1e-6) /\
      (throws (rm.UnitQuaternion.conjugate NDEBUG q) <->
       NDEBUG = false /\ Rabs (rm.UnitQuaternion.norm q - 1) > 1e-6)) /\
  (forall (NDEBUG : bool) (this : rm.UnitQuaternion.t) (quat : rm.Quaternion.t),
      throws (rm.UnitQuaternion.call_Quaternion NDEBUG this quat) <->
      NDEBUG = false /\ Rabs (rm.Quaternion.norm quat - 1) > 1e-6) /\
  (forall (NDEBUG : bool) (q : rm.Quaternion.t),
      0 < rm.Quaternion.norm q -> ~ throws (rm.toUnitQuaternion NDEBUG q)) /\
  (forall (NDEBUG : bool) (dummy_precision : Scalar)
          (pow : Scalar -> Scalar -> Scalar) (c : call),
      throws (outcome NDEBUG dummy_precision pow c) <->
      NDEBUG = false /\ failed_check c).
Proof.
  repeat apply conj.
  - intros. apply of_Base_throws.
  - intros. apply ASSERT_SCALAR_NEAR_throws.
  - intros. rewrite convert_EulerAnglesZyx_Ok. apply throws_Ok.
  - intros NDEBUG q. split; apply inverse_throws.
  - intros. apply call_Quaternion_throws.
  - intros NDEBUG q Hq. unfold rm.toUnitQuaternion.
    rewrite of_Implementation_throws. intros [_ H].
    rewrite qnorm_qnormalized in H by exact Hq.
    replace (1 - 1) with 0 in H by ring. rewrite Rabs_R0 in H. lra.
  - intros. apply outcome_throws.
Qed.

(** C4 fails in three places.  In a non-debug build the constructor from
    nine scalars accepts twice the identity, which is not orthogonal.  In
    a debug build [inverse] raises the error on a unit quaternion whose
    scalar part was set to 2 through the accessor, and so does
    [operator()], which is no constructor, on the quaternion 2. *)
Lemma InvalidRepresentation_elsewhere :
  kindr.RotationMatrix.of_scalars true 2 0 0 0 2 0 0 0 2
  = Ok (kindr.RotationMatrix.mk (Eigen.mkMatrix3 2 0 0 0 2 0 0 0 2)) /\
  ~ rotation_within (Eigen.mkMatrix3 2 0 0 0 2 0 0 0 2) 1e-4 /\
  rm.UnitQuaternion.inverse false
    (rm.UnitQuaternion.set_w rm.UnitQuaternion.default 2)
  = Throw (assertion_failed "Input quaternion has not unit length.") /\
  rm.UnitQuaternion.call_Quaternion false rm.UnitQuaternion.default
    (rm.Quaternion.of_coefficients 2 0 0 0)
  = Throw (assertion_failed "Input quaternion has not unit length.").
Proof.
  assert (N : near 2 1 1e-6 = false).
  { apply near_false. replace (2 - 1) with 1 by ring.
    rewrite Rabs_R1. lra. }
  repeat apply conj.
  - reflexivity.
  - intros [(H & _) _]. simpl in H.
    replace (2 * 2 + 0 * 0 + 0 * 0 - 1) with 3 in H by ring.
    rewrite Rabs_right in H; lra.
  - unfold rm.UnitQuaternion.inverse, rm.UnitQuaternion.of_Quaternion,
      ASSERT_SCALAR_NEAR.
    assert (E : rm.UnitQuaternion.norm
                  (rm.UnitQuaternion.mk
                     (rm.Quaternion.conjugate
                        (rm.UnitQuaternion.Base
                           (rm.UnitQuaternion.set_w rm.UnitQuaternion.default 2))))
                = 2).
    { unfold rm.UnitQuaternion.norm, rm.Quaternion.norm, Eigen.qnorm,
        Eigen.qsquaredNorm; simpl. quaternion_simpl.
      replace (2 * 2 + - 0 * - 0 + - 0 * - 0 + - 0 * - 0) with (2 * 2) by ring.
      apply sqrt_square. lra. }
    rewrite E, N. reflexivity.
  - unfold rm.UnitQuaternion.call_Quaternion, ASSERT_SCALAR_NEAR.
    assert (E : rm.UnitQuaternion.norm
                  (rm.UnitQuaternion.mk (rm.Quaternion.of_coefficients 2 0 0 0))
                = 2).
    { unfold rm.UnitQuaternion.norm, rm.Quaternion.norm, Eigen.qnorm,
        Eigen.qsquaredNorm; simpl.
      replace (2 * 2 + 0 * 0 + 0 * 0 + 0 * 0) with (2 * 2) by ring.
      apply sqrt_square. lra. }
    change (rm.UnitQuaternion.norm _)
      with (rm.UnitQuaternion.norm
              (rm.UnitQuaternion.mk (rm.Quaternion.of_coefficients 2 0 0 0))).
    rewrite E, N. reflexivity.
Qed.

(** In a debug build the quaternion 2, of the positive norm 2, converts
    to a unit quaternion without the error. *)
Lemma InvalidRepresentation_raised_witness :
  0 < rm.Quaternion.norm (rm.Quaternion.of_coefficients 2 0 0 0) /\
  ~ throws (rm.toUnitQuaternion false (rm.Quaternion.of_coefficients 2 0 0 0)).
Proof.
  assert (H : 0 < rm.Quaternion.norm (rm.Quaternion.of_coefficients 2 0 0 0)).
  { unfold rm.Quaternion.norm, Eigen.qnorm, Eigen.qsquaredNorm; simpl.
    apply sqrt_lt_R0. lra. }
  split; [exact H|].
  exact (proj1 (proj2 (proj2 (proj2 (proj2 (proj2
           InvalidRepresentation_raised))))) false _ H).
Defined.

(** ** The code on concrete inputs *)

(** A quarter turn about Z alone converts to the active quarter turn,
    with the coefficients 0 -1 0, 1 0 0, 0 0 1. *)
Example convert_EulerAnglesZyx_quarter_turn_Z :
  kindr.ConversionTraits.convert_EulerAnglesZyx false
    (kindr.EulerAnglesZyx.mk (PI / 2) 0 0)
  = Ok (kindr.RotationMatrix.mk (Eigen.mkMatrix3 0 (-1) 0 1 0 0 0 0 1)).
Proof.
  rewrite convert_EulerAnglesZyx_Ok. f_equal.
  unfold kindr.MultiplicationTraits.mult, kindr.RotationMatrix.assign. f_equal.
  matrix_ext; rewrite ?sin_PI2, ?cos_PI2, ?sin_0, ?cos_0; ring.
Qed.

(** A quarter turn about Z and then one about the fixed Y axis: the
    coefficients are 0 0 1, 1 0 0, 0 1 0. *)
Example convert_EulerAnglesZyx_quarter_turns_Z_Y :
  kindr.ConversionTraits.convert_EulerAnglesZyx false
    (kindr.EulerAnglesZyx.mk (PI / 2) (PI / 2) 0)
  = Ok (kindr.RotationMatrix.mk (Eigen.mkMatrix3 0 0 1 1 0 0 0 1 0)).
Proof.
  rewrite convert_EulerAnglesZyx_Ok. f_equal.
  unfold kindr.MultiplicationTraits.mult, kindr.RotationMatrix.assign. f_equal.
  matrix_ext; rewrite ?sin_PI2, ?cos_PI2, ?sin_0, ?cos_0; ring.
Qed.

(** The constructor from nine scalars rejects twice the identity in a
    debug build. *)
Example of_scalars_rejects_2I :
  kindr.RotationMatrix.of_scalars false 2 0 0 0 2 0 0 0 2
  = Throw (runtime_error "Input matrix is not orthogonal.").
Proof.
  unfold kindr.RotationMatrix.of_scalars, KINDR_ASSERT_MATRIX_NEAR_DBG.
  destruct (matrix_near _ _ _) eqn:E; [|reflexivity].
  apply matrix_near_true in E. destruct E as [E _]. simpl in E.
  replace (2 * 2 + 0 * 0 + 0 * 0 - 1) with 3 in E by ring.
  rewrite Rabs_right in E; lra.
Qed.

(** * Further properties of the two headers *)

(** ** The algebra of rotation matrices *)

Lemma product_Identity_l (a : Eigen.Matrix3) :
  Eigen.product Eigen.Identity a = a.
Proof. destruct a. matrix_ext; ring. Qed.

Lemma transpose_involutive (a : Eigen.Matrix3) :
  Eigen.transpose (Eigen.transpose a) = a.
Proof. destruct a. reflexivity. Qed.

Lemma determinant_transpose (a : Eigen.Matrix3) :
  Eigen.determinant (Eigen.transpose a) = Eigen.determinant a.
Proof. unfold Eigen.determinant; simpl; ring. Qed.

(** X1: the composition of rotation matrices is associative and has the
    default-constructed matrix, the identity, as its neutral element on
    both sides; this holds of all values, valid or not. *)
Theorem mult_monoid (A B C : kindr.RotationMatrix.t) :
  kindr.MultiplicationTraits.mult (kindr.MultiplicationTraits.mult A B) C
  = kindr.MultiplicationTraits.mult A (kindr.MultiplicationTraits.mult B C) /\
  kindr.MultiplicationTraits.mult kindr.RotationMatrix.default A = A /\
  kindr.MultiplicationTraits.mult A kindr.RotationMatrix.default = A.
Proof.
  destruct A as [a], B as [b], C as [c].
  unfold kindr.MultiplicationTraits.mult, kindr.RotationMatrix.assign,
    kindr.RotationMatrix.default; simpl.
  rewrite product_assoc, product_Identity_l, product_Identity_r.
  repeat split.
Qed.

(** X2: [inverted] undoes itself, and the [inverted] of a composition is
    the composition of the [inverted] operands in the reverse order. *)
Theorem inverted_involutive_antimorphism (A B : kindr.RotationMatrix.t) :
  kindr.RotationMatrix.inverted (kindr.RotationMatrix.inverted A) = A /\
  kindr.RotationMatrix.inverted (kindr.MultiplicationTraits.mult A B)
  = kindr.MultiplicationTraits.mult (kindr.RotationMatrix.inverted B)
      (kindr.RotationMatrix.inverted A).
Proof.
  destruct A as [a], B as [b].
  unfold kindr.RotationMatrix.inverted, kindr.MultiplicationTraits.mult,
    kindr.RotationMatrix.assign; simpl.
  rewrite transpose_involutive, transpose_product. split; reflexivity.
Qed.

(** X3: [determinant] is multiplicative over the composition, and
    [inverted] and [transposed] keep it. *)
Theorem determinant_mult_inverted (A B : kindr.RotationMatrix.t) :
  kindr.RotationMatrix.determinant (kindr.MultiplicationTraits.mult A B)
  = kindr.RotationMatrix.determinant A * kindr.RotationMatrix.determinant B /\
  kindr.RotationMatrix.determinant (kindr.RotationMatrix.inverted A)
  = kindr.RotationMatrix.determinant A /\
  kindr.RotationMatrix.determinant (kindr.RotationMatrix.transposed A)
  = kindr.RotationMatrix.determinant A.
Proof.
  destruct A as [a], B as [b].
  unfold kindr.RotationMatrix.determinant, kindr.RotationMatrix.inverted,
    kindr.RotationMatrix.transposed, kindr.MultiplicationTraits.mult,
    kindr.RotationMatrix.assign; simpl.
  rewrite determinant_product, determinant_transpose. repeat split.
Qed.

Lemma valid_default : valid kindr.RotationMatrix.default.
Proof.
  split.
  - unfold orthogonal, Eigen.Identity. matrix_ext; ring.
  - unfold kindr.RotationMatrix.determinant, Eigen.determinant; simpl. ring.
Qed.

Lemma valid_inverted (A : kindr.RotationMatrix.t) :
  valid A -> valid (kindr.RotationMatrix.inverted A).
Proof.
  intros [Ho Hd]. split.
  - unfold orthogonal, kindr.RotationMatrix.inverted,
      kindr.RotationMatrix.assign; simpl.
    rewrite transpose_involutive. apply orthogonal_left, Ho.
  - unfold kindr.RotationMatrix.determinant, kindr.RotationMatrix.inverted,
      kindr.RotationMatrix.assign in *; simpl.
    rewrite determinant_transpose. exact Hd.
Qed.

(** X4: the valid rotation matrices, orthogonal with determinant 1, are
    kept by the operations: the default matrix is valid, the composition
    of two valid matrices is valid, and so is the [inverted] of one. *)
Theorem valid_closed (A B : kindr.RotationMatrix.t) :
  valid A -> valid B ->
  valid kindr.RotationMatrix.default /\
  valid (kindr.MultiplicationTraits.mult A B) /\
  valid (kindr.RotationMatrix.inverted A) /\
  valid (kindr.RotationMatrix.getUnique A).
Proof.
  intros HA HB. split; [|split; [|split]].
  - apply valid_default.
  - apply (valid_mult A B HA HB).
  - apply (valid_inverted A HA).
  - exact HA.
Qed.

(** The quarter turns about Z and about X are valid, and so are their
    composition and the inverse of the first. *)
Lemma valid_closed_witness :
  valid (Rz (PI / 2)) /\ valid (Rx (PI / 2)) /\
  valid (kindr.MultiplicationTraits.mult (Rz (PI / 2)) (Rx (PI / 2))) /\
  valid (kindr.RotationMatrix.inverted (Rz (PI / 2))).
Proof.
  pose proof (Rz_valid (PI / 2)) as Hz. pose proof (Rx_valid (PI / 2)) as Hx.
  pose proof (valid_closed (Rz (PI / 2)) (Rx (PI / 2)) Hz Hx) as (_ & Hm & Hi & _).
  split; [exact Hz | split; [exact Hx | split; [exact Hm | exact Hi]]].
Defined.

(** The determinant of an orthogonal matrix is 1 or -1. *)
Lemma orthogonal_determinant (m : Eigen.Matrix3) :
  Eigen.product m (Eigen.transpose m) = Eigen.Identity ->
  Eigen.determinant m = 1 \/ Eigen.determinant m = -1.
Proof.
  intros H. apply (f_equal Eigen.determinant) in H.
  rewrite determinant_product, determinant_transpose in H.
  replace (Eigen.determinant Eigen.Identity) with 1 in H
    by (unfold Eigen.determinant; simpl; ring).
  assert (E : (Eigen.determinant m - 1) * (Eigen.determinant m + 1) = 0)
    by (ring_simplify; lra).
  apply Rmult_integral in E. destruct E; [left | right]; lra.
Qed.

(** X5: on a matrix that is exactly orthogonal the checked constructors
    of a debug build decide by the determinant, which is 1 or -1: a
    proper rotation is accepted, and a reflection is rejected with the
    message about the determinant, not the one about orthogonality. *)
Theorem constructor_on_orthogonal (m : Eigen.Matrix3) :
  orthogonal (kindr.RotationMatrix.mk m) ->
  (Eigen.determinant m = 1 /\
   kindr.RotationMatrix.of_Base false m = Ok (kindr.RotationMatrix.mk m)) \/
  (Eigen.determinant m = -1 /\
   kindr.RotationMatrix.of_Base false m
   = Throw (runtime_error "Input matrix determinant is not 1.")).
Proof.
  intros Ho. unfold orthogonal in Ho. simpl in Ho.
  destruct (orthogonal_determinant m Ho) as [Hd | Hd]; [left | right];
    split; try exact Hd.
  - apply of_Base_valid. split; [exact Ho | exact Hd].
  - unfold kindr.RotationMatrix.of_Base, KINDR_ASSERT_MATRIX_NEAR_DBG,
      KINDR_ASSERT_SCALAR_NEAR_DBG.
    rewrite Ho, Hd, matrix_near_refl by lra. simpl.
    assert (N : near (-1) 1 1e-4 = false).
    { apply near_false. replace (-1 - 1) with (- (2)) by ring.
      rewrite Rabs_Ropp, Rabs_right; lra. }
    rewrite N. reflexivity.
Qed.

(** The mirror image in the plane z = 0 is orthogonal, and is rejected
    for its determinant. *)
Lemma constructor_on_orthogonal_witness :
  orthogonal (kindr.RotationMatrix.mk (Eigen.mkMatrix3 1 0 0 0 1 0 0 0 (-1))) /\
  kindr.RotationMatrix.of_Base false (Eigen.mkMatrix3 1 0 0 0 1 0 0 0 (-1))
  = Throw (runtime_error "Input matrix determinant is not 1.").
Proof.
  assert (H : orthogonal
                (kindr.RotationMatrix.mk (Eigen.mkMatrix3 1 0 0 0 1 0 0 0 (-1)))).
  { unfold orthogonal, Eigen.Identity. matrix_ext; ring. }
  split; [exact H|].
  destruct (constructor_on_orthogonal _ H) as [[Hd _] | [_ Ht]].
  - exfalso. unfold Eigen.determinant in Hd. simpl in Hd. lra.
  - exact Ht.
Defined.

(** ** Conversion from a quaternion *)

Lemma qnorm_square (q : Eigen.Quaternion) :
  Eigen.qnorm q * Eigen.qnorm q = Eigen.qsquaredNorm q.
Proof. apply sqrt_sqrt, qsquaredNorm_nonneg. Qed.

Lemma qnorm_1 (q : Eigen.Quaternion) :
  Eigen.qnorm q = 1 ->
  Eigen.qw q * Eigen.qw q + Eigen.qx q * Eigen.qx q
  + Eigen.qy q * Eigen.qy q + Eigen.qz q * Eigen.qz q = 1.
Proof.
  intros H. pose proof (qnorm_square q) as E. rewrite H in E.
  unfold Eigen.qsquaredNorm in E. lra.
Qed.

(** The matrix of a quaternion of norm 1 is orthogonal with determinant 1. *)
Lemma toRotationMatrix_valid (q : Eigen.Quaternion) :
  Eigen.qnorm q = 1 ->
  valid (kindr.RotationMatrix.mk (Eigen.toRotationMatrix q)).
Proof.
  intros H. apply qnorm_1 in H. destruct q as [w x y z]. simpl in H.
  split.
  - unfold orthogonal, Eigen.Identity. matrix_ext; nsatz.
  - unfold kindr.RotationMatrix.determinant, Eigen.determinant,
      Eigen.toRotationMatrix; simpl. nsatz.
Qed.

(** X6: the conversion of a rotation quaternion of norm 1 is a valid
    rotation matrix, orthogonal with determinant 1. *)
Theorem convert_RotationQuaternion_valid (q : kindr.RotationQuaternion.t) :
  Eigen.qnorm (kindr.RotationQuaternion.toImplementation q) = 1 ->
  valid (kindr.ConversionTraits.convert_RotationQuaternion q).
Proof.
  intros H. destruct q as [q]. apply (toRotationMatrix_valid q H).
Qed.

(** The quaternion with the coefficients 3/5, 0, 4/5, 0 has norm 1. *)
Lemma convert_RotationQuaternion_valid_witness :
  Eigen.qnorm (Eigen.mkQuaternion (3 / 5) 0 (4 / 5) 0) = 1 /\
  valid (kindr.ConversionTraits.convert_RotationQuaternion
           (kindr.RotationQuaternion.mk (Eigen.mkQuaternion (3 / 5) 0 (4 / 5) 0))).
Proof.
  assert (H : Eigen.qnorm (Eigen.mkQuaternion (3 / 5) 0 (4 / 5) 0) = 1).
  { unfold Eigen.qnorm, Eigen.qsquaredNorm; simpl.
    replace (3 / 5 * (3 / 5) + 0 * 0 + 4 / 5 * (4 / 5) + 0 * 0) with (1 * 1)
      by field.
    apply sqrt_square. lra. }
  split; [exact H|].
  exact (convert_RotationQuaternion_valid
           (kindr.RotationQuaternion.mk (Eigen.mkQuaternion (3 / 5) 0 (4 / 5) 0)) H).
Defined.

(** X7: a quaternion and its negation convert to the same matrix, and
    the conjugate of a quaternion converts to the [inverted] matrix;
    both hold of every quaternion, of norm 1 or not. *)
Theorem convert_RotationQuaternion_negation_conjugate (q : Eigen.Quaternion) :
  kindr.ConversionTraits.convert_RotationQuaternion
    (kindr.RotationQuaternion.mk
       (Eigen.mkQuaternion (- Eigen.qw q) (- Eigen.qx q)
                           (- Eigen.qy q) (- Eigen.qz q)))
  = kindr.ConversionTraits.convert_RotationQuaternion
      (kindr.RotationQuaternion.mk q) /\
  kindr.ConversionTraits.convert_RotationQuaternion
    (kindr.RotationQuaternion.mk (Eigen.qconjugate q))
  = kindr.RotationMatrix.inverted
      (kindr.ConversionTraits.convert_RotationQuaternion
         (kindr.RotationQuaternion.mk q)).
Proof.
  unfold kindr.ConversionTraits.convert_RotationQuaternion,
    kindr.RotationMatrix.inverted, kindr.RotationMatrix.assign; simpl.
  split; f_equal; matrix_ext; ring.
Qed.

(** X8: on quaternions of norm 1 the conversion turns the product of
    quaternions into the composition of rotation matrices. *)
Theorem convert_RotationQuaternion_product (a b : rm.Quaternion.t) :
  rm.Quaternion.norm a = 1 -> rm.Quaternion.norm b = 1 ->
  kindr.ConversionTraits.convert_RotationQuaternion
    (kindr.RotationQuaternion.mk
       (rm.Quaternion.toImplementation (rm.operator_mul a b)))
  = kindr.MultiplicationTraits.mult
      (kindr.ConversionTraits.convert_RotationQuaternion
         (kindr.RotationQuaternion.mk (rm.Quaternion.toImplementation a)))
      (kindr.ConversionTraits.convert_RotationQuaternion
         (kindr.RotationQuaternion.mk (rm.Quaternion.toImplementation b))).
Proof.
  destruct a as [[w x y z]], b as [[a b c d]].
  unfold rm.Quaternion.norm; simpl. intros Ha Hb.
  apply qnorm_1 in Ha. apply qnorm_1 in Hb. simpl in Ha, Hb.
  unfold kindr.ConversionTraits.convert_RotationQuaternion,
    kindr.MultiplicationTraits.mult, kindr.RotationMatrix.assign,
    rm.operator_mul, rm.MultiplicationTraits.mult, rm.Quaternion.of_Base; simpl.
  f_equal. unfold Eigen.toRotationMatrix, Eigen.qproduct. matrix_ext; nsatz.
Qed.

(** The units i and j have norm 1, and the matrix of their product is
    the composition of their matrices. *)
Lemma convert_RotationQuaternion_product_witness :
  rm.Quaternion.norm (rm.Quaternion.of_coefficients 0 1 0 0) = 1 /\
  rm.Quaternion.norm (rm.Quaternion.of_coefficients 0 0 1 0) = 1 /\
  kindr.ConversionTraits.convert_RotationQuaternion
    (kindr.RotationQuaternion.mk
       (rm.Quaternion.toImplementation
          (rm.operator_mul (rm.Quaternion.of_coefficients 0 1 0 0)
                           (rm.Quaternion.of_coefficients 0 0 1 0))))
  = kindr.MultiplicationTraits.mult
      (kindr.ConversionTraits.convert_RotationQuaternion
         (kindr.RotationQuaternion.mk (Eigen.mkQuaternion 0 1 0 0)))
      (kindr.ConversionTraits.convert_RotationQuaternion
         (kindr.RotationQuaternion.mk (Eigen.mkQuaternion 0 0 1 0))).
Proof.
  assert (Hi : rm.Quaternion.norm (rm.Quaternion.of_coefficients 0 1 0 0) = 1).
  { unfold rm.Quaternion.norm, Eigen.qnorm, Eigen.qsquaredNorm; simpl.
    replace (0 * 0 + 1 * 1 + 0 * 0 + 0 * 0) with 1 by ring. apply sqrt_1. }
  assert (Hj : rm.Quaternion.norm (rm.Quaternion.of_coefficients 0 0 1 0) = 1).
  { unfold rm.Quaternion.norm, Eigen.qnorm, Eigen.qsquaredNorm; simpl.
    replace (0 * 0 + 0 * 0 + 1 * 1 + 0 * 0) with 1 by ring. apply sqrt_1. }
  split; [exact Hi | split; [exact Hj|]].
  exact (convert_RotationQuaternion_product _ _ Hi Hj).
Defined.

(** ** Conversion from an angle and an axis *)

Lemma norm_1 (u : Eigen.Vector3) :
  Eigen.norm u = 1 ->
  Eigen.vx u * Eigen.vx u + Eigen.vy u * Eigen.vy u + Eigen.vz u * Eigen.vz u = 1.
Proof.
  intros H. pose proof (norm_square u) as E. rewrite H in E. lra.
Qed.

(** X9: the conversion of an angle about an axis of norm 1 is a valid
    rotation matrix, and it leaves the axis where it is. *)
Theorem convert_AngleAxis_valid (a : Scalar) (n : Eigen.Vector3) :
  Eigen.norm n = 1 ->
  valid (kindr.ConversionTraits.convert_AngleAxis
           (kindr.AngleAxis.mk (Eigen.mkAngleAxis a n))) /\
  Eigen.mulVector
    (kindr.RotationMatrix.toImplementation
       (kindr.ConversionTraits.convert_AngleAxis
          (kindr.AngleAxis.mk (Eigen.mkAngleAxis a n)))) n
  = n.
Proof.
  intros H. apply norm_1 in H. destruct n as [n1 n2 n3]. simpl in H.
  pose proof (sin2_cos2 a) as Hsc. unfold Rsqr in Hsc.
  unfold kindr.ConversionTraits.convert_AngleAxis, kindr.RotationMatrix.assign,
    Eigen.aaToRotationMatrix; simpl.
  set (s := sin a) in *. set (c := cos a) in *.
  split; [split|].
  - unfold orthogonal, Eigen.Identity. matrix_ext; nsatz.
  - unfold kindr.RotationMatrix.determinant, Eigen.determinant; simpl. nsatz.
  - unfold Eigen.mulVector; simpl. f_equal; nsatz.
Qed.

(** A third of a turn about the axis (0, 0, 1). *)
Lemma convert_AngleAxis_valid_witness :
  Eigen.norm (Eigen.mkVector3 0 0 1) = 1 /\
  valid (kindr.ConversionTraits.convert_AngleAxis
           (kindr.AngleAxis.mk
              (Eigen.mkAngleAxis (2 * PI / 3) (Eigen.mkVector3 0 0 1)))).
Proof.
  assert (H : Eigen.norm (Eigen.mkVector3 0 0 1) = 1).
  { unfold Eigen.norm, Eigen.squaredNorm; simpl.
    replace (0 * 0 + 0 * 0 + 1 * 1) with 1 by ring. apply sqrt_1. }
  split; [exact H|].
  exact (proj1 (convert_AngleAxis_valid (2 * PI / 3) (Eigen.mkVector3 0 0 1) H)).
Defined.

(** ** More on the conversion from a rotation vector *)

Lemma RotationMatrix_eq (A B : kindr.RotationMatrix.t) :
  kindr.RotationMatrix.toImplementation A
  = kindr.RotationMatrix.toImplementation B -> A = B.
Proof. destruct A, B; simpl; intros ->; reflexivity. Qed.

Lemma norm_vopposite (u : Eigen.Vector3) :
  Eigen.norm (Eigen.vopposite u) = Eigen.norm u.
Proof.
  unfold Eigen.norm, Eigen.squaredNorm; simpl. f_equal. ring.
Qed.

(** The norm of a positive multiple of a vector of norm 1. *)
Lemma norm_vscaled (a : Scalar) (n : Eigen.Vector3) :
  0 <= a -> Eigen.norm n = 1 -> Eigen.norm (Eigen.vscaled a n) = a.
Proof.
  intros Ha Hn. apply norm_1 in Hn.
  unfold Eigen.norm, Eigen.squaredNorm; simpl.
  replace (a * Eigen.vx n * (a * Eigen.vx n) + a * Eigen.vy n * (a * Eigen.vy n)
           + a * Eigen.vz n * (a * Eigen.vz n))
    with (a * a * (Eigen.vx n * Eigen.vx n + Eigen.vy n * Eigen.vy n
                   + Eigen.vz n * Eigen.vz n)) by ring.
  rewrite Hn, Rmult_1_r. apply sqrt_square, Ha.
Qed.

Section RotationVectorProperties.

Variable dummy_precision : Scalar.

(** X10: the conversion of the opposite rotation vector is the [inverted]
    conversion of the vector, in both branches. *)
Theorem convert_RotationVector_opposite (u : Eigen.Vector3) :
  kindr.ConversionTraits.convert_RotationVector dummy_precision
    (kindr.RotationVector.mk (Eigen.vopposite u))
  = kindr.RotationMatrix.inverted
      (kindr.ConversionTraits.convert_RotationVector dummy_precision
         (kindr.RotationVector.mk u)).
Proof.
  destruct u as [v1 v2 v3]. apply RotationMatrix_eq.
  unfold kindr.RotationMatrix.inverted, kindr.RotationMatrix.assign.
  cbv [kindr.RotationMatrix.toImplementation].
  change (Eigen.vopposite (Eigen.mkVector3 v1 v2 v3))
    with (Eigen.mkVector3 (- v1) (- v2) (- v3)).
  pose proof (norm_vopposite (Eigen.mkVector3 v1 v2 v3)) as Hn.
  change (Eigen.vopposite (Eigen.mkVector3 v1 v2 v3))
    with (Eigen.mkVector3 (- v1) (- v2) (- v3)) in Hn.
  destruct (Rlt_dec (Eigen.norm (Eigen.mkVector3 v1 v2 v3)) dummy_precision)
    as [Hs | Hl].
  - fold (kindr.RotationMatrix.toImplementation
            (kindr.ConversionTraits.convert_RotationVector dummy_precision
               (kindr.RotationVector.mk (Eigen.mkVector3 (- v1) (- v2) (- v3))))).
    fold (kindr.RotationMatrix.toImplementation
            (kindr.ConversionTraits.convert_RotationVector dummy_precision
               (kindr.RotationVector.mk (Eigen.mkVector3 v1 v2 v3)))).
    rewrite !convert_RotationVector_small by (rewrite ?Hn; exact Hs).
    matrix_ext; ring.
  - apply Rnot_lt_le in Hl.
    fold (kindr.RotationMatrix.toImplementation
            (kindr.ConversionTraits.convert_RotationVector dummy_precision
               (kindr.RotationVector.mk (Eigen.mkVector3 (- v1) (- v2) (- v3))))).
    fold (kindr.RotationMatrix.toImplementation
            (kindr.ConversionTraits.convert_RotationVector dummy_precision
               (kindr.RotationVector.mk (Eigen.mkVector3 v1 v2 v3)))).
    rewrite !convert_RotationVector_large by (rewrite ?Hn; exact Hl).
    rewrite Hn. matrix_ext; unfold Rdiv; ring.
Qed.

(** X11: below the threshold the result has the determinant 1 plus the
    squared norm of the vector, so the first-order approximation is a
    valid rotation matrix for the zero vector only. *)
Theorem convert_RotationVector_small_determinant (u : Eigen.Vector3) :
  Eigen.norm u < dummy_precision ->
  kindr.RotationMatrix.determinant
    (kindr.ConversionTraits.convert_RotationVector dummy_precision
       (kindr.RotationVector.mk u))
  = 1 + Eigen.squaredNorm u /\
  (valid (kindr.ConversionTraits.convert_RotationVector dummy_precision
            (kindr.RotationVector.mk u))
   <-> u = Eigen.mkVector3 0 0 0).
Proof.
  destruct u as [v1 v2 v3]. intros Hs.
  pose proof (convert_RotationVector_small dummy_precision v1 v2 v3 Hs) as E.
  assert (D : kindr.RotationMatrix.determinant
                (kindr.ConversionTraits.convert_RotationVector dummy_precision
                   (kindr.RotationVector.mk (Eigen.mkVector3 v1 v2 v3)))
              = 1 + Eigen.squaredNorm (Eigen.mkVector3 v1 v2 v3)).
  { unfold kindr.RotationMatrix.determinant. rewrite E.
    unfold Eigen.determinant, Eigen.squaredNorm; simpl. ring. }
  split; [exact D|]. split.
  - intros [_ Hd]. rewrite D in Hd. unfold Eigen.squaredNorm in Hd.
    simpl in Hd.
    assert (H1 : v1 = 0) by nra. assert (H2 : v2 = 0) by nra.
    assert (H3 : v3 = 0) by nra. subst. reflexivity.
  - intros H; injection H as -> -> ->.
    replace (kindr.ConversionTraits.convert_RotationVector dummy_precision
               (kindr.RotationVector.mk (Eigen.mkVector3 0 0 0)))
      with kindr.RotationMatrix.default; [apply valid_default|].
    apply RotationMatrix_eq. rewrite E. simpl. rewrite Ropp_0. reflexivity.
Qed.

Hypothesis dummy_precision_pos : 0 < dummy_precision.

(** X12: the rotation vector is a fixed axis of the matrix it converts
    to, in both branches: the matrix maps the vector to itself. *)
Theorem convert_RotationVector_axis (u : Eigen.Vector3) :
  Eigen.mulVector
    (kindr.RotationMatrix.toImplementation
       (kindr.ConversionTraits.convert_RotationVector dummy_precision
          (kindr.RotationVector.mk u))) u
  = u.
Proof.
  destruct u as [v1 v2 v3].
  destruct (Rlt_dec (Eigen.norm (Eigen.mkVector3 v1 v2 v3)) dummy_precision)
    as [Hs | Hl].
  - rewrite convert_RotationVector_small by exact Hs.
    unfold Eigen.mulVector; simpl. f_equal; ring.
  - apply Rnot_lt_le in Hl.
    rewrite convert_RotationVector_large by exact Hl.
    pose proof (norm_square (Eigen.mkVector3 v1 v2 v3)) as Hn. simpl in Hn.
    pose proof (sin2_cos2 (Eigen.norm (Eigen.mkVector3 v1 v2 v3) / 2)) as Hsc.
    unfold Rsqr in Hsc.
    set (v := Eigen.norm (Eigen.mkVector3 v1 v2 v3)) in *.
    set (s := sin (v / 2)) in *. set (c := cos (v / 2)) in *.
    assert (Ht : / (v * v) * (v * v) = 1) by (field; lra).
    unfold Eigen.mulVector, Rdiv; simpl.
    set (t := / (v * v)) in *.
    f_equal; nsatz.
Qed.

(** X13: from the threshold on, the result is a valid rotation matrix,
    orthogonal with determinant 1. *)
Theorem convert_RotationVector_large_valid (u : Eigen.Vector3) :
  dummy_precision <= Eigen.norm u ->
  valid (kindr.ConversionTraits.convert_RotationVector dummy_precision
           (kindr.RotationVector.mk u)).
Proof.
  destruct u as [v1 v2 v3]. intros Hl.
  pose proof (convert_RotationVector_half_angle dummy_precision
                dummy_precision_pos v1 v2 v3 Hl) as E.
  set (v := Eigen.norm (Eigen.mkVector3 v1 v2 v3)) in *.
  set (q := Eigen.mkQuaternion (cos (v / 2)) (sin (v / 2) * (v1 / v))
              (sin (v / 2) * (v2 / v)) (sin (v / 2) * (v3 / v))) in *.
  replace (kindr.ConversionTraits.convert_RotationVector dummy_precision
             (kindr.RotationVector.mk (Eigen.mkVector3 v1 v2 v3)))
    with (kindr.RotationMatrix.mk (Eigen.toRotationMatrix q))
    by (apply RotationMatrix_eq; symmetry; exact E).
  apply toRotationMatrix_valid.
  unfold Eigen.qnorm, Eigen.qsquaredNorm, q; simpl.
  pose proof (norm_square (Eigen.mkVector3 v1 v2 v3)) as Hn. simpl in Hn.
  fold v in Hn.
  pose proof (sin2_cos2 (v / 2)) as Hsc. unfold Rsqr in Hsc.
  set (s := sin (v / 2)) in *. set (c := cos (v / 2)) in *.
  replace (c * c + s * (v1 / v) * (s * (v1 / v)) + s * (v2 / v) * (s * (v2 / v))
           + s * (v3 / v) * (s * (v3 / v)))
    with (c * c + s * s * ((v1 * v1 + v2 * v2 + v3 * v3) / (v * v)))
    by (field; lra).
  rewrite <- Hn. replace (v * v / (v * v)) with 1 by (field; lra).
  rewrite Rmult_1_r, Rplus_comm, Hsc. apply sqrt_1.
Qed.

(** X14: from the threshold on, the rotation vector of an angle times an
    axis of norm 1 converts to the same matrix as that angle about that
    axis: the half-angle expansion agrees with the formula in the full
    angle. *)
Theorem convert_RotationVector_AngleAxis (a : Scalar) (n : Eigen.Vector3) :
  Eigen.norm n = 1 -> dummy_precision <= a ->
  kindr.ConversionTraits.convert_RotationVector dummy_precision
    (kindr.RotationVector.mk (Eigen.vscaled a n))
  = kindr.ConversionTraits.convert_AngleAxis
      (kindr.AngleAxis.mk (Eigen.mkAngleAxis a n)).
Proof.
  intros Hn Ha. assert (Ha0 : 0 <= a) by lra.
  pose proof (norm_vscaled a n Ha0 Hn) as Hv.
  apply norm_1 in Hn. destruct n as [n1 n2 n3]. simpl in Hn.
  change (Eigen.vscaled a (Eigen.mkVector3 n1 n2 n3))
    with (Eigen.mkVector3 (a * n1) (a * n2) (a * n3)) in *.
  apply RotationMatrix_eq.
  rewrite convert_RotationVector_large by (rewrite Hv; exact Ha).
  rewrite Hv.
  assert (HS : sin a = 2 * sin (a / 2) * cos (a / 2))
    by (rewrite <- sin_2a; f_equal; field).
  assert (HC : cos a = cos (a / 2) * cos (a / 2) - sin (a / 2) * sin (a / 2))
    by (rewrite <- cos_2a; f_equal; field).
  pose proof (sin2_cos2 (a / 2)) as Hsc. unfold Rsqr in Hsc.
  unfold kindr.ConversionTraits.convert_AngleAxis, kindr.RotationMatrix.assign,
    Eigen.aaToRotationMatrix; simpl.
  rewrite HS, HC.
  set (s := sin (a / 2)) in *. set (c := cos (a / 2)) in *.
  assert (Ht : / (a * a) * (a * a) = 1) by (field; lra).
  unfold Rdiv. set (t := / (a * a)) in *.
  matrix_ext; nsatz.
Qed.

End RotationVectorProperties.

Lemma norm_0_0_2 : Eigen.norm (Eigen.mkVector3 0 0 2) = 2.
Proof.
  unfold Eigen.norm, Eigen.squaredNorm; simpl.
  replace (0 * 0 + 0 * 0 + 2 * 2) with (2 * 2) by ring.
  apply sqrt_square. lra.
Qed.

Lemma norm_0_0_1 : Eigen.norm (Eigen.mkVector3 0 0 1) = 1.
Proof.
  unfold Eigen.norm, Eigen.squaredNorm; simpl.
  replace (0 * 0 + 0 * 0 + 1 * 1) with 1 by ring. apply sqrt_1.
Qed.

(** With the threshold 1 the vector (1/2, 0, 0), of norm 1/2, takes the
    first branch. *)
Lemma convert_RotationVector_small_determinant_witness :
  Eigen.norm (Eigen.mkVector3 (1 / 2) 0 0) < 1 /\
  kindr.RotationMatrix.determinant
    (kindr.ConversionTraits.convert_RotationVector 1
       (kindr.RotationVector.mk (Eigen.mkVector3 (1 / 2) 0 0)))
  = 1 + Eigen.squaredNorm (Eigen.mkVector3 (1 / 2) 0 0).
Proof.
  assert (H : Eigen.norm (Eigen.mkVector3 (1 / 2) 0 0) < 1).
  { unfold Eigen.norm, Eigen.squaredNorm; simpl.
    replace (1 / 2 * (1 / 2) + 0 * 0 + 0 * 0) with (1 / 2 * (1 / 2)) by ring.
    rewrite sqrt_square; lra. }
  split; [exact H|].
  exact (proj1 (convert_RotationVector_small_determinant 1
                  (Eigen.mkVector3 (1 / 2) 0 0) H)).
Defined.

(** With the threshold 1e-12 the vector (0, 0, 2) is a fixed axis of its
    matrix. *)
Lemma convert_RotationVector_axis_witness :
  0 < 1e-12 /\
  Eigen.mulVector
    (kindr.RotationMatrix.toImplementation
       (kindr.ConversionTraits.convert_RotationVector 1e-12
          (kindr.RotationVector.mk (Eigen.mkVector3 0 0 2))))
    (Eigen.mkVector3 0 0 2)
  = Eigen.mkVector3 0 0 2.
Proof.
  assert (H : 0 < 1e-12) by lra.
  split; [exact H|].
  exact (convert_RotationVector_axis 1e-12 H (Eigen.mkVector3 0 0 2)).
Defined.

(** With the threshold 1e-12 the vector (0, 0, 2), of norm 2, takes the
    second branch. *)
Lemma convert_RotationVector_large_valid_witness :
  0 < 1e-12 /\ 1e-12 <= Eigen.norm (Eigen.mkVector3 0 0 2) /\
  valid (kindr.ConversionTraits.convert_RotationVector 1e-12
           (kindr.RotationVector.mk (Eigen.mkVector3 0 0 2))).
Proof.
  assert (H : 0 < 1e-12) by lra.
  assert (Hn : 1e-12 <= Eigen.norm (Eigen.mkVector3 0 0 2))
    by (rewrite norm_0_0_2; lra).
  split; [exact H | split; [exact Hn|]].
  exact (convert_RotationVector_large_valid 1e-12 H (Eigen.mkVector3 0 0 2) Hn).
Defined.

(** With the threshold 1e-12: the angle 2 about the axis (0, 0, 1). *)
Lemma convert_RotationVector_AngleAxis_witness :
  0 < 1e-12 /\ Eigen.norm (Eigen.mkVector3 0 0 1) = 1 /\ 1e-12 <= 2 /\
  kindr.ConversionTraits.convert_RotationVector 1e-12
    (kindr.RotationVector.mk (Eigen.vscaled 2 (Eigen.mkVector3 0 0 1)))
  = kindr.ConversionTraits.convert_AngleAxis
      (kindr.AngleAxis.mk (Eigen.mkAngleAxis 2 (Eigen.mkVector3 0 0 1))).
Proof.
  assert (H : 0 < 1e-12) by lra.
  assert (H2 : 1e-12 <= 2) by lra.
  split; [exact H | split; [exact norm_0_0_1 | split; [exact H2|]]].
  exact (convert_RotationVector_AngleAxis 1e-12 H 2 (Eigen.mkVector3 0 0 1)
           norm_0_0_1 H2).
Defined.

(** ** More on the conversion from Euler angles Z-Y-X *)

(** X15: the conversion from Euler angles always returns a valid
    rotation matrix, in a debug build or not, and a full turn added to
    any of the three angles does not change it. *)
Theorem convert_EulerAnglesZyx_valid_periodic
  (NDEBUG : bool) (first second third : Scalar) :
  (exists R : kindr.RotationMatrix.t,
      kindr.ConversionTraits.convert_EulerAnglesZyx NDEBUG
        (kindr.EulerAnglesZyx.mk first second third) = Ok R /\ valid R) /\
  kindr.ConversionTraits.convert_EulerAnglesZyx NDEBUG
    (kindr.EulerAnglesZyx.mk (first + 2 * PI) second third)
  = kindr.ConversionTraits.convert_EulerAnglesZyx NDEBUG
      (kindr.EulerAnglesZyx.mk first second third) /\
  kindr.ConversionTraits.convert_EulerAnglesZyx NDEBUG
    (kindr.EulerAnglesZyx.mk first (second + 2 * PI) third)
  = kindr.ConversionTraits.convert_EulerAnglesZyx NDEBUG
      (kindr.EulerAnglesZyx.mk first second third) /\
  kindr.ConversionTraits.convert_EulerAnglesZyx NDEBUG
    (kindr.EulerAnglesZyx.mk first second (third + 2 * PI))
  = kindr.ConversionTraits.convert_EulerAnglesZyx NDEBUG
      (kindr.EulerAnglesZyx.mk first second third).
Proof.
  assert (Hs : forall a, sin (a + 2 * PI) = sin a)
    by (intros a; rewrite sin_plus, sin_2PI, cos_2PI; ring).
  assert (Hc : forall a, cos (a + 2 * PI) = cos a)
    by (intros a; rewrite cos_plus, sin_2PI, cos_2PI; ring).
  split; [|repeat split].
  - eexists. split; [apply convert_EulerAnglesZyx_Ok|].
    apply valid_mult; [apply Rx_valid|].
    apply valid_mult; [apply Ry_valid | apply Rz_valid].
  - unfold kindr.ConversionTraits.convert_EulerAnglesZyx; simpl.
    rewrite Hs, Hc. reflexivity.
  - unfold kindr.ConversionTraits.convert_EulerAnglesZyx; simpl.
    rewrite Hs, Hc. reflexivity.
  - unfold kindr.ConversionTraits.convert_EulerAnglesZyx; simpl.
    rewrite Hs, Hc. reflexivity.
Qed.

(** X16: gimbal lock.  When the second angle is a quarter turn the
    result depends on the sum of the first and the third angle only, and
    when it is minus a quarter turn on their difference only. *)
Theorem convert_EulerAnglesZyx_gimbal_lock
  (NDEBUG : bool) (first third : Scalar) :
  kindr.ConversionTraits.convert_EulerAnglesZyx NDEBUG
    (kindr.EulerAnglesZyx.mk first (PI / 2) third)
  = kindr.ConversionTraits.convert_EulerAnglesZyx NDEBUG
      (kindr.EulerAnglesZyx.mk (first + third) (PI / 2) 0) /\
  kindr.ConversionTraits.convert_EulerAnglesZyx NDEBUG
    (kindr.EulerAnglesZyx.mk first (- (PI / 2)) third)
  = kindr.ConversionTraits.convert_EulerAnglesZyx NDEBUG
      (kindr.EulerAnglesZyx.mk (first - third) (- (PI / 2)) 0).
Proof.
  split; rewrite !convert_EulerAnglesZyx_Ok; f_equal; simpl;
    unfold kindr.MultiplicationTraits.mult, kindr.RotationMatrix.assign;
    f_equal; simpl; unfold Rminus;
    rewrite ?sin_neg, ?cos_neg, ?sin_PI2, ?cos_PI2, ?sin_0, ?cos_0,
      ?sin_plus, ?cos_plus, ?sin_neg, ?cos_neg;
    matrix_ext; ring.
Qed.

(** X17: a single non-zero angle converts to the elementary active
    rotation about its axis: the first angle about Z, the second about
    Y, the third about X. *)
Theorem convert_EulerAnglesZyx_single_axis (NDEBUG : bool) (a : Scalar) :
  kindr.ConversionTraits.convert_EulerAnglesZyx NDEBUG
    (kindr.EulerAnglesZyx.mk a 0 0) = Ok (Rz a) /\
  kindr.ConversionTraits.convert_EulerAnglesZyx NDEBUG
    (kindr.EulerAnglesZyx.mk 0 a 0) = Ok (Ry a) /\
  kindr.ConversionTraits.convert_EulerAnglesZyx NDEBUG
    (kindr.EulerAnglesZyx.mk 0 0 a) = Ok (Rx a).
Proof.
  repeat split; rewrite convert_EulerAnglesZyx_Ok; f_equal; simpl;
    unfold kindr.MultiplicationTraits.mult, kindr.RotationMatrix.assign,
      Rx, Ry, Rz; f_equal; simpl; rewrite ?sin_0, ?cos_0; matrix_ext; ring.
Qed.

(** ** More on fixing a drifted matrix *)

(** The cube root of the cube of a positive number. *)
Lemma Rpower_cube_third (k : Scalar) :
  0 < k -> Rpower (k * k * k) (1 / 3) = k.
Proof.
  intros Hk. replace (k * k * k) with (k ^ 3) by ring.
  rewrite <- Rpower_pow by exact Hk. rewrite Rpower_mult.
  replace (INR 3 * (1 / 3)) with 1 by (simpl; field).
  apply Rpower_1, Hk.
Qed.

Lemma toImplementation_inverted (R : kindr.RotationMatrix.t) :
  kindr.RotationMatrix.toImplementation (kindr.RotationMatrix.inverted R)
  = Eigen.transpose (kindr.RotationMatrix.toImplementation R).
Proof. reflexivity. Qed.

Lemma toImplementation_mult (A B : kindr.RotationMatrix.t) :
  kindr.RotationMatrix.toImplementation (kindr.MultiplicationTraits.mult A B)
  = Eigen.product (kindr.RotationMatrix.toImplementation A)
                  (kindr.RotationMatrix.toImplementation B).
Proof. reflexivity. Qed.

Section FixingProperties.

Variable pow : Scalar -> Scalar -> Scalar.

(** X18: [fix] commutes with [inverted]: fixing the inverse is inverting
    the fixed matrix, whatever the determinant. *)
Theorem fix_inverted (R : kindr.RotationMatrix.t) :
  kindr.FixingTraits.fix_ pow (kindr.RotationMatrix.inverted R)
  = kindr.RotationMatrix.inverted (kindr.FixingTraits.fix_ pow R).
Proof.
  apply RotationMatrix_eq.
  rewrite toImplementation_inverted, !fix_scaled, transpose_scaled.
  rewrite toImplementation_inverted.
  unfold kindr.RotationMatrix.determinant.
  rewrite toImplementation_inverted, determinant_transpose. reflexivity.
Qed.

Hypothesis pow_positive : forall x y : Scalar, 0 < x -> pow x y = Rpower x y.

(** X19: in the exact arithmetic of this model, [fix] maps any positive
    multiple of a valid rotation matrix back to that matrix; in floating
    point this holds within rounding. *)
Theorem fix_recovers (Q : kindr.RotationMatrix.t) (k : Scalar) :
  valid Q -> 0 < k ->
  kindr.FixingTraits.fix_ pow
    (kindr.RotationMatrix.mk
       (Eigen.scaled k (kindr.RotationMatrix.toImplementation Q)))
  = Q.
Proof.
  intros [_ Hd] Hk. destruct Q as [m].
  unfold kindr.RotationMatrix.determinant in Hd. simpl in Hd.
  apply RotationMatrix_eq. rewrite fix_scaled.
  unfold kindr.RotationMatrix.determinant; simpl.
  rewrite determinant_scaled, Hd, Rmult_1_r.
  assert (Hk3 : 0 < k * k * k) by (repeat apply Rmult_lt_0_compat; exact Hk).
  rewrite pow_positive, Rpower_cube_third by assumption.
  destruct m. matrix_ext; field; lra.
Qed.

(** X20: on matrices of positive determinant [fix] distributes over the
    composition. *)
Theorem fix_mult (A B : kindr.RotationMatrix.t) :
  0 < kindr.RotationMatrix.determinant A ->
  0 < kindr.RotationMatrix.determinant B ->
  kindr.FixingTraits.fix_ pow (kindr.MultiplicationTraits.mult A B)
  = kindr.MultiplicationTraits.mult (kindr.FixingTraits.fix_ pow A)
      (kindr.FixingTraits.fix_ pow B).
Proof.
  unfold kindr.RotationMatrix.determinant. intros Ha Hb.
  apply RotationMatrix_eq.
  rewrite toImplementation_mult, !fix_scaled, product_scaled.
  unfold kindr.RotationMatrix.determinant.
  rewrite toImplementation_mult, determinant_product.
  assert (Hab : 0 < Eigen.determinant (kindr.RotationMatrix.toImplementation A)
                    * Eigen.determinant (kindr.RotationMatrix.toImplementation B))
    by (apply Rmult_lt_0_compat; assumption).
  rewrite !pow_positive by assumption.
  rewrite <- Rpower_mult_distr by assumption.
  f_equal. field. split; apply Rgt_not_eq, exp_pos.
Qed.

End FixingProperties.

(** With the real power for [pow]: three times the quarter turn about Z
    is fixed to the quarter turn. *)
Lemma fix_recovers_witness :
  valid (kindr.RotationMatrix.mk (Eigen.mkMatrix3 0 (-1) 0 1 0 0 0 0 1)) /\
  0 < 3 /\
  kindr.FixingTraits.fix_ Rpower
    (kindr.RotationMatrix.mk
       (Eigen.scaled 3 (Eigen.mkMatrix3 0 (-1) 0 1 0 0 0 0 1)))
  = kindr.RotationMatrix.mk (Eigen.mkMatrix3 0 (-1) 0 1 0 0 0 0 1).
Proof.
  assert (Hv : valid (kindr.RotationMatrix.mk
                        (Eigen.mkMatrix3 0 (-1) 0 1 0 0 0 0 1))).
  { split.
    - unfold orthogonal, Eigen.Identity. matrix_ext; ring.
    - unfold kindr.RotationMatrix.determinant, Eigen.determinant; simpl. ring. }
  assert (H3 : 0 < 3) by lra.
  split; [exact Hv | split; [exact H3|]].
  exact (fix_recovers Rpower (fun x y _ => eq_refl) _ 3 Hv H3).
Defined.

(** With the real power for [pow]: twice the identity and the matrix
    with the diagonal 2, 1/2, 1 have positive determinants. *)
Lemma fix_mult_witness :
  0 < kindr.RotationMatrix.determinant
        (kindr.RotationMatrix.mk (Eigen.mkMatrix3 2 0 0 0 2 0 0 0 2)) /\
  0 < kindr.RotationMatrix.determinant
        (kindr.RotationMatrix.mk (Eigen.mkMatrix3 2 0 0 0 (1 / 2) 0 0 0 1)) /\
  kindr.FixingTraits.fix_ Rpower
    (kindr.MultiplicationTraits.mult
       (kindr.RotationMatrix.mk (Eigen.mkMatrix3 2 0 0 0 2 0 0 0 2))
       (kindr.RotationMatrix.mk (Eigen.mkMatrix3 2 0 0 0 (1 / 2) 0 0 0 1)))
  = kindr.MultiplicationTraits.mult
      (kindr.FixingTraits.fix_ Rpower
         (kindr.RotationMatrix.mk (Eigen.mkMatrix3 2 0 0 0 2 0 0 0 2)))
      (kindr.FixingTraits.fix_ Rpower
         (kindr.RotationMatrix.mk (Eigen.mkMatrix3 2 0 0 0 (1 / 2) 0 0 0 1))).
Proof.
  assert (Ha : 0 < kindr.RotationMatrix.determinant
                     (kindr.RotationMatrix.mk (Eigen.mkMatrix3 2 0 0 0 2 0 0 0 2))).
  { unfold kindr.RotationMatrix.determinant, Eigen.determinant; simpl. lra. }
  assert (Hb : 0 < kindr.RotationMatrix.determinant
                     (kindr.RotationMatrix.mk
                        (Eigen.mkMatrix3 2 0 0 0 (1 / 2) 0 0 0 1))).
  { unfold kindr.RotationMatrix.determinant, Eigen.determinant; simpl. lra. }
  split; [exact Ha | split; [exact Hb|]].
  exact (fix_mult Rpower (fun x y _ => eq_refl) _ _ Ha Hb).
Defined.

(** ** The algebra of quaternions *)

Lemma Quaternion_eq (a b : rm.Quaternion.t) :
  rm.Quaternion.w a = rm.Quaternion.w b -> rm.Quaternion.x a = rm.Quaternion.x b ->
  rm.Quaternion.y a = rm.Quaternion.y b -> rm.Quaternion.z a = rm.Quaternion.z b ->
  a = b.
Proof.
  destruct a as [[aw ax ay az]], b as [[bw bx b_y bz]]. quaternion_simpl.
  intros -> -> -> ->. reflexivity.
Qed.

(** Splits an equation between two quaternions into its four
    coefficients. *)
Ltac quaternion_ext :=
  apply Quaternion_eq;
  cbv [rm.operator_mul rm.MultiplicationTraits.mult rm.Quaternion.conjugate
       rm.Quaternion.inverse rm.Quaternion.normalized Eigen.qproduct
       Eigen.qconjugate Eigen.qnormalized];
  quaternion_simpl.

Lemma qsquaredNorm_qproduct (a b : Eigen.Quaternion) :
  Eigen.qsquaredNorm (Eigen.qproduct a b)
  = Eigen.qsquaredNorm a * Eigen.qsquaredNorm b.
Proof. unfold Eigen.qsquaredNorm, Eigen.qproduct; simpl. ring. Qed.

Lemma qsquaredNorm_pos (q : Eigen.Quaternion) :
  0 < Eigen.qnorm q -> 0 < Eigen.qsquaredNorm q.
Proof.
  intros H. rewrite <- qnorm_square. apply Rmult_lt_0_compat; exact H.
Qed.

(** X21: the product of quaternions is associative and has the identity
    quaternion, the default unit quaternion, as its neutral element on
    both sides. *)
Theorem operator_mul_monoid (a b c : rm.Quaternion.t) :
  rm.operator_mul (rm.operator_mul a b) c
  = rm.operator_mul a (rm.operator_mul b c) /\
  rm.operator_mul (rm.UnitQuaternion.Base rm.UnitQuaternion.default) a = a /\
  rm.operator_mul a (rm.UnitQuaternion.Base rm.UnitQuaternion.default) = a.
Proof.
  destruct a as [[aw ax ay az]], b as [[bw bx b_y bz]], c as [[cw cx cy cz]].
  repeat split; quaternion_ext; ring.
Qed.

(** X22: [conjugate] undoes itself and reverses the product: the
    conjugate of a product is the product of the conjugates in the
    reverse order. *)
Theorem conjugate_involutive_antimorphism (a b : rm.Quaternion.t) :
  rm.Quaternion.conjugate (rm.Quaternion.conjugate a) = a /\
  rm.Quaternion.conjugate (rm.operator_mul a b)
  = rm.operator_mul (rm.Quaternion.conjugate b) (rm.Quaternion.conjugate a).
Proof.
  destruct a as [[aw ax ay az]], b as [[bw bx b_y bz]].
  split; quaternion_ext; ring.
Qed.

(** X23: the norm is multiplicative over the product of quaternions, and
    [conjugate] keeps it. *)
Theorem norm_operator_mul (a b : rm.Quaternion.t) :
  rm.Quaternion.norm (rm.operator_mul a b)
  = rm.Quaternion.norm a * rm.Quaternion.norm b /\
  rm.Quaternion.norm (rm.Quaternion.conjugate a) = rm.Quaternion.norm a.
Proof.
  unfold rm.Quaternion.norm, rm.operator_mul, rm.MultiplicationTraits.mult,
    rm.Quaternion.conjugate, rm.Quaternion.of_Base; simpl. split.
  - unfold Eigen.qnorm. rewrite qsquaredNorm_qproduct.
    apply sqrt_mult; apply qsquaredNorm_nonneg.
  - apply qnorm_qconjugate.
Qed.

(** X24: [inverse] of a quaternion of positive norm is its inverse for
    the product on both sides; [inverse] of the zero quaternion is the
    zero quaternion, which flags the error. *)
Theorem inverse_law_Quaternion (q : rm.Quaternion.t) :
  (0 < rm.Quaternion.norm q ->
   rm.operator_mul q (rm.Quaternion.inverse q)
   = rm.UnitQuaternion.Base rm.UnitQuaternion.default /\
   rm.operator_mul (rm.Quaternion.inverse q) q
   = rm.UnitQuaternion.Base rm.UnitQuaternion.default) /\
  rm.Quaternion.inverse rm.Quaternion.default = rm.Quaternion.default.
Proof.
  split.
  - destruct q as [q]. unfold rm.Quaternion.norm; simpl. intros Hn.
    apply qsquaredNorm_pos in Hn.
    unfold rm.operator_mul, rm.MultiplicationTraits.mult,
      rm.Quaternion.inverse, rm.Quaternion.of_Base, rm.UnitQuaternion.default;
      simpl.
    unfold Eigen.qinverse. apply Rltb_true in Hn as Hb. rewrite Hb.
    destruct q as [w x y z]. unfold Eigen.qsquaredNorm in *. simpl in *.
    unfold Eigen.qproduct, Eigen.QIdentity; simpl.
    split; do 2 f_equal; field; lra.
  - unfold rm.Quaternion.inverse, rm.Quaternion.default, rm.Quaternion.of_Base,
      Eigen.qinverse; simpl.
    assert (Hb : Rltb 0 (Eigen.qsquaredNorm (Eigen.mkQuaternion 0 0 0 0)) = false).
    { apply Rltb_false. unfold Eigen.qsquaredNorm; simpl. lra. }
    rewrite Hb. reflexivity.
Qed.

Lemma norm_2_0_0_0 :
  rm.Quaternion.norm (rm.Quaternion.of_coefficients 2 0 0 0) = 2.
Proof.
  unfold rm.Quaternion.norm, Eigen.qnorm, Eigen.qsquaredNorm; simpl.
  replace (2 * 2 + 0 * 0 + 0 * 0 + 0 * 0) with (2 * 2) by ring.
  apply sqrt_square. lra.
Qed.

(** The quaternion 2 has the positive norm 2. *)
Lemma inverse_law_Quaternion_witness :
  0 < rm.Quaternion.norm (rm.Quaternion.of_coefficients 2 0 0 0) /\
  rm.operator_mul (rm.Quaternion.of_coefficients 2 0 0 0)
    (rm.Quaternion.inverse (rm.Quaternion.of_coefficients 2 0 0 0))
  = rm.UnitQuaternion.Base rm.UnitQuaternion.default.
Proof.
  assert (H : 0 < rm.Quaternion.norm (rm.Quaternion.of_coefficients 2 0 0 0))
    by (rewrite norm_2_0_0_0; lra).
  split; [exact H|].
  exact (proj1 (proj1 (inverse_law_Quaternion
                         (rm.Quaternion.of_coefficients 2 0 0 0)) H)).
Defined.

(** X25: [normalized] of a quaternion of positive norm has norm 1, and
    normalizing it again changes nothing. *)
Theorem normalized_unit_idempotent (q : rm.Quaternion.t) :
  0 < rm.Quaternion.norm q ->
  rm.Quaternion.norm (rm.Quaternion.normalized q) = 1 /\
  rm.Quaternion.normalized (rm.Quaternion.normalized q)
  = rm.Quaternion.normalized q.
Proof.
  destruct q as [q]. unfold rm.Quaternion.norm; simpl. intros Hn.
  pose proof (qnorm_qnormalized q Hn) as H1.
  split; [exact H1|].
  unfold rm.Quaternion.normalized, rm.Quaternion.of_Base; simpl. f_equal.
  unfold Eigen.qnormalized at 1. rewrite H1.
  destruct (Eigen.qnormalized q). simpl. f_equal; field.
Qed.

Lemma normalized_unit_idempotent_witness :
  0 < rm.Quaternion.norm (rm.Quaternion.of_coefficients 2 0 0 0) /\
  rm.Quaternion.norm
    (rm.Quaternion.normalized (rm.Quaternion.of_coefficients 2 0 0 0)) = 1.
Proof.
  assert (H : 0 < rm.Quaternion.norm (rm.Quaternion.of_coefficients 2 0 0 0))
    by (rewrite norm_2_0_0_0; lra).
  split; [exact H|].
  exact (proj1 (normalized_unit_idempotent
                  (rm.Quaternion.of_coefficients 2 0 0 0) H)).
Defined.

(** X26: [toUnitQuaternion] of a quaternion of positive norm returns the
    normalized quaternion as a unit quaternion, of norm 1, in a debug
    build or not. *)
Theorem toUnitQuaternion_normalized (NDEBUG : bool) (q : rm.Quaternion.t) :
  0 < rm.Quaternion.norm q ->
  rm.toUnitQuaternion NDEBUG q
  = Ok (rm.UnitQuaternion.mk (rm.Quaternion.normalized q)) /\
  rm.UnitQuaternion.norm (rm.UnitQuaternion.mk (rm.Quaternion.normalized q))
  = 1.
Proof.
  destruct q as [q]. unfold rm.Quaternion.norm; simpl. intros Hn.
  pose proof (qnorm_qnormalized q Hn) as H1.
  split; [|exact H1].
  unfold rm.toUnitQuaternion, rm.UnitQuaternion.of_Implementation,
    ASSERT_SCALAR_NEAR, rm.UnitQuaternion.norm, rm.Quaternion.norm; simpl.
  rewrite H1, near_refl by lra. destruct NDEBUG; reflexivity.
Qed.

Lemma toUnitQuaternion_normalized_witness :
  0 < rm.Quaternion.norm (rm.Quaternion.of_coefficients 2 0 0 0) /\
  rm.toUnitQuaternion false (rm.Quaternion.of_coefficients 2 0 0 0)
  = Ok (rm.UnitQuaternion.mk
          (rm.Quaternion.normalized (rm.Quaternion.of_coefficients 2 0 0 0))).
Proof.
  assert (H : 0 < rm.Quaternion.norm (rm.Quaternion.of_coefficients 2 0 0 0))
    by (rewrite norm_2_0_0_0; lra).
  split; [exact H|].
  exact (proj1 (toUnitQuaternion_normalized false
                  (rm.Quaternion.of_coefficients 2 0 0 0) H)).
Defined.

(** X27: on a unit quaternion whose norm is within 1e-6 of 1, [inverse]
    and [conjugate] both return the conjugate, and inverting the result
    gives the operand back, in a debug build or not. *)
Theorem UnitQuaternion_inverse_involutive
  (NDEBUG : bool) (q : rm.UnitQuaternion.t) :
  Rabs (rm.UnitQuaternion.norm q - 1) <= 1e-6 ->
  rm.UnitQuaternion.inverse NDEBUG q
  = Ok (rm.UnitQuaternion.mk (rm.Quaternion.conjugate (rm.UnitQuaternion.Base q))) /\
  rm.UnitQuaternion.conjugate NDEBUG q = rm.UnitQuaternion.inverse NDEBUG q /\
  bind (rm.UnitQuaternion.inverse NDEBUG q) (rm.UnitQuaternion.inverse NDEBUG)
  = Ok q.
Proof.
  destruct q as [[q]]. unfold rm.UnitQuaternion.norm, rm.Quaternion.norm; simpl.
  intros Hn. apply near_true in Hn.
  assert (E : rm.UnitQuaternion.inverse NDEBUG
                (rm.UnitQuaternion.mk (rm.Quaternion.mk q))
              = Ok (rm.UnitQuaternion.mk
                      (rm.Quaternion.conjugate (rm.Quaternion.mk q)))).
  { unfold rm.UnitQuaternion.inverse, rm.UnitQuaternion.of_Quaternion,
      ASSERT_SCALAR_NEAR, rm.UnitQuaternion.norm, rm.Quaternion.norm; simpl.
    rewrite qnorm_qconjugate, Hn. destruct NDEBUG; reflexivity. }
  split; [exact E | split; [reflexivity|]].
  rewrite E. simpl.
  unfold rm.UnitQuaternion.inverse, rm.UnitQuaternion.of_Quaternion,
    ASSERT_SCALAR_NEAR, rm.UnitQuaternion.norm, rm.Quaternion.norm; simpl.
  rewrite !qnorm_qconjugate, Hn.
  assert (C : rm.Quaternion.conjugate
                (rm.Quaternion.conjugate (rm.Quaternion.mk q))
              = rm.Quaternion.mk q).
  { unfold rm.Quaternion.conjugate, rm.Quaternion.of_Base; simpl. f_equal.
    destruct q; unfold Eigen.qconjugate; simpl. f_equal; ring. }
  destruct NDEBUG; simpl; rewrite C; reflexivity.
Qed.

(** In a debug build: the unit quaternion with the coefficients 3/5, 0,
    4/5, 0 has norm 1; its [inverse] has the coefficients 3/5, -0, -4/5,
    -0, and the [inverse] of that is the quaternion again. *)
Lemma UnitQuaternion_inverse_involutive_witness :
  Rabs (rm.UnitQuaternion.norm
          (rm.UnitQuaternion.mk
             (rm.Quaternion.of_coefficients (3 / 5) 0 (4 / 5) 0)) - 1) <= 1e-6 /\
  rm.UnitQuaternion.inverse false
    (rm.UnitQuaternion.mk (rm.Quaternion.of_coefficients (3 / 5) 0 (4 / 5) 0))
  = Ok (rm.UnitQuaternion.mk
          (rm.Quaternion.of_coefficients (3 / 5) (- 0) (- (4 / 5)) (- 0))) /\
  bind (rm.UnitQuaternion.inverse false
          (rm.UnitQuaternion.mk
             (rm.Quaternion.of_coefficients (3 / 5) 0 (4 / 5) 0)))
       (rm.UnitQuaternion.inverse false)
  = Ok (rm.UnitQuaternion.mk (rm.Quaternion.of_coefficients (3 / 5) 0 (4 / 5) 0)).
Proof.
  assert (H : Rabs (rm.UnitQuaternion.norm
                      (rm.UnitQuaternion.mk
                         (rm.Quaternion.of_coefficients (3 / 5) 0 (4 / 5) 0)) - 1)
              <= 1e-6).
  { unfold rm.UnitQuaternion.norm, rm.Quaternion.norm, Eigen.qnorm,
      Eigen.qsquaredNorm; simpl.
    replace (3 / 5 * (3 / 5) + 0 * 0 + 4 / 5 * (4 / 5) + 0 * 0) with (1 * 1)
      by field.
    rewrite sqrt_square by lra.
    replace (1 - 1) with 0 by ring. rewrite Rabs_R0. lra. }
  split; [exact H|]. split.
  - exact (proj1 (UnitQuaternion_inverse_involutive false _ H)).
  - exact (proj2 (proj2 (UnitQuaternion_inverse_involutive false _ H))).
Defined.


